(** * reflex/utils/hosting.py: the hosting client, embedded and verified

    A shallow embedding of the credential store, the token validation,
    the pydantic models with root validators, [process_envs],
    [convert_to_local_time] and the deploy-milestone loop of
    [reflex/utils/hosting.py].

    Python's effects are explicit.  A computation is a function from a
    [world] (the credential file, the answers the network will give, the
    requests already sent, the log stream, the console) to a [result] and a
    new world; exceptions are a
    constructor of [result] and [try ... except] is [try_except]. *)

From Stdlib Require Import ZArith Bool List Ascii String Lia.
From stdpp Require Import base option list strings gmap.
Import ListNotations.
Local Open Scope string_scope.

(** ** Python values and exceptions *)

Module Py.

#[local] Set Warnings "-register-all".

(** The values [json.load] produces; [VNone] is Python's [None].  A dict is
    a list of items in insertion order. *)
Inductive value :=
  | VNone
  | VBool (b : bool)
  | VInt (z : Z)
  | VStr (s : string)
  | VList (l : list value)
  | VDict (items : list (string * value)).

(** [bool(v)]: what [if v], [not v] and [assert v] test. *)
Definition truthy (v : value) : bool :=
  match v with
  | VNone => false
  | VBool b => b
  | VInt z => negb (Z.eqb z 0)
  | VStr s => negb (String.eqb s "")
  | VList l => match l with [] => false | _ :: _ => true end
  | VDict d => match d with [] => false | _ :: _ => true end
  end.

Fixpoint items_get (k : string) (items : list (string * value)) : option value :=
  match items with
  | [] => None
  | (k', v) :: rest => if String.eqb k k' then Some v else items_get k rest
  end.

Fixpoint items_del (k : string) (items : list (string * value)) : list (string * value) :=
  match items with
  | [] => []
  | (k', v) :: rest =>
      if String.eqb k k' then items_del k rest else (k', v) :: items_del k rest
  end.

(** The exception classes this module raises, catches or lets through. *)
Inductive exn_class :=
  | Exception            (* raised as plain [Exception(msg)] *)
  | ValueError
  | AssertionError
  | AttributeError
  | KeyError
  | TypeError
  | FileNotFoundError
  | FileExistsError
  | PermissionError
  | UnsupportedOperation (* io.UnsupportedOperation: OSError and ValueError *)
  | JSONDecodeError      (* json.JSONDecodeError: a ValueError *)
  | UnicodeEncodeError   (* a ValueError: text that is not ASCII in a header *)
  | InvalidURL           (* httpx.InvalidURL: an Exception, no HTTPError *)
  | ValidationError      (* pydantic.ValidationError: a ValueError *)
  | HTTPError            (* httpx.HTTPError that is no RequestError *)
  | HTTPStatusError      (* httpx.HTTPStatusError, from raise_for_status *)
  | RequestError         (* httpx.RequestError that is no timeout *)
  | TimeoutException     (* httpx.TimeoutException: a RequestError *)
  | ConnectionClosed     (* websockets.ConnectionClosed *)
  | RuntimeError         (* any other subclass of Exception *)
  | SystemExit.          (* a BaseException, not an Exception *)

Record exn := Exn { exn_cls : exn_class; exn_msg : string }.

(** [isinstance(e, cls)] for the classes named in [except] clauses. *)
Definition is_Exception (e : exn) : bool :=
  match exn_cls e with SystemExit => false | _ => true end.

Definition is_ValueError (e : exn) : bool :=
  match exn_cls e with
  | ValueError | UnsupportedOperation | JSONDecodeError | ValidationError
  | UnicodeEncodeError => true
  | _ => false
  end.

Definition is_RequestError (e : exn) : bool :=
  match exn_cls e with RequestError | TimeoutException => true | _ => false end.

Definition is_TimeoutException (e : exn) : bool :=
  match exn_cls e with TimeoutException => true | _ => false end.

Definition is_HTTPError (e : exn) : bool :=
  match exn_cls e with
  | HTTPError | HTTPStatusError | RequestError | TimeoutException => true
  | _ => false
  end.

Inductive result (A : Type) :=
  | Ret (a : A)
  | Raise (e : exn).
Arguments Ret {A} a.
Arguments Raise {A} e.

End Py.
Export Py.

(** ** The world: credential file and network *)

(** What the file at [constants.Hosting.HOSTING_JSON] holds, by what
    [json.load] makes of it. *)
Inductive content :=
  | Empty                  (* zero bytes; [json.load] raises *)
  | Malformed              (* text that is not JSON; [json.load] raises *)
  | Document (v : value).  (* the JSON text of [v] *)

Record file := File {
  f_content : content;
  f_readable : bool;   (* the process may open it for reading *)
  f_writable : bool    (* the process may open it for writing *)
}.

(** What a request that httpx has built and handed to the network comes
    back with.  (A request httpx cannot build never gets here: see
    [build_request].) *)
Inductive http_outcome :=
  | Timeout                   (* httpx.TimeoutException *)
  | NetworkError              (* another httpx.RequestError *)
  | ProtocolError             (* an httpx.HTTPError that is no RequestError *)
  | Unexpected                (* an exception of another class, no ValueError *)
  | Response (status : Z).    (* a response with this status code *)

Inductive request :=
  | POST_validate_me (token : value)
  | DELETE_deployment (key : string) (token : value).

(** What one [await ws.recv()] followed by [json.loads] comes to. *)
Inductive frame :=
  | Closed                   (* [recv] raises: the connection is gone *)
  | BadJson                  (* a frame that [json.loads] rejects *)
  | Frame (row_json : value).

Record world := World {
  hosting_json : option file;        (* [None]: the path does not exist *)
  responses : nat -> http_outcome;   (* the answer to the n-th request *)
  requests : list request;           (* the requests sent, oldest first *)
  slept : nat;                       (* calls of [time.sleep] *)
  ws_connects : bool;                (* whether [websockets.connect] succeeds *)
  frames : nat -> frame;             (* the n-th frame of the log stream *)
  received : nat;                    (* calls of [ws.recv] *)
  console : list string;             (* lines printed, oldest first *)
  can_create : bool                  (* a missing file can be created: its
                                        directory exists and may be written *)
}.

Definition set_file (f : option file) (w : world) : world :=
  World f (responses w) (requests w) (slept w)
        (ws_connects w) (frames w) (received w) (console w)
        (can_create w).

Definition add_request (r : request) (w : world) : world :=
  World (hosting_json w) (responses w) (requests w ++ [r]) (slept w)
        (ws_connects w) (frames w) (received w) (console w)
        (can_create w).

Definition add_sleep (w : world) : world :=
  World (hosting_json w) (responses w) (requests w) (S (slept w))
        (ws_connects w) (frames w) (received w) (console w)
        (can_create w).

Definition add_received (w : world) : world :=
  World (hosting_json w) (responses w) (requests w) (slept w)
        (ws_connects w) (frames w) (S (received w)) (console w)
        (can_create w).

Definition add_line (line : string) (w : world) : world :=
  World (hosting_json w) (responses w) (requests w) (slept w)
        (ws_connects w) (frames w) (received w) (console w ++ [line])
        (can_create w).

(** ** Computations with state and exceptions *)

Definition M (A : Type) : Type := world -> result A * world.

Definition ret {A} (a : A) : M A := fun w => (Ret a, w).

Definition raise {A} (c : exn_class) (msg : string) : M A :=
  fun w => (Raise (Exn c msg), w).

Definition reraise {A} (e : exn) : M A := fun w => (Raise e, w).

Definition bind {A B} (m : M A) (k : A -> M B) : M B :=
  fun w => match m w with
           | (Ret a, w') => k a w'
           | (Raise e, w') => (Raise e, w')
           end.

(** [try: m  except ... as e: h e].  The handler sees every exception and
    re-raises the ones no clause matches. *)
Definition try_except {A} (m : M A) (h : exn -> M A) : M A :=
  fun w => match m w with
           | (Ret a, w') => (Ret a, w')
           | (Raise e, w') => h e w'
           end.

Declare Scope py_scope.
Delimit Scope py_scope with py.
Notation "'let*' x ':=' m 'in' k" := (bind m (fun x => k))
  (at level 10, x name, m at level 100, k at level 200, only parsing) : py_scope.
Notation "m ';;' k" := (bind m (fun _ => k))
  (at level 100, k at level 200, only parsing, right associativity) : py_scope.
Local Open Scope py_scope.

(** [except Exception as e: h e] *)
Definition except_Exception {A} (h : exn -> M A) (e : exn) : M A :=
  if is_Exception e then h e else reraise e.

(** ** Files *)

Record handle := Handle { h_readable : bool; h_writable : bool }.

Fixpoint count_char (c : ascii) (s : string) : nat :=
  match s with
  | EmptyString => 0
  | String x rest => (if Ascii.eqb x c then 1 else 0) + count_char c rest
  end.

Definition has_char (c : ascii) (s : string) : bool :=
  negb (Nat.eqb (count_char c s) 0).

(** [open(HOSTING_JSON, mode)].  Python checks the mode string before it
    touches the file system: it must name exactly one of read, write,
    append and create, else [ValueError] is raised.  ["r"] needs an
    existing readable file; ["w"] truncates the file or creates it, which
    fails when its directory is missing or may not be written. *)
Definition open_file (mode : string) : M handle :=
  fun w =>
    let kinds := (count_char "r" mode + count_char "w" mode
                  + count_char "a" mode + count_char "x" mode)%nat in
    if negb (Nat.eqb kinds 1) then
      raise ValueError "must have exactly one of create/read/write/append mode" w
    else
      let plus := has_char "+" mode in
      if has_char "r" mode then
        match hosting_json w with
        | None => raise FileNotFoundError "No such file or directory" w
        | Some f =>
            if f_readable f && (negb plus || f_writable f)
            then (Ret (Handle true plus), w)
            else raise PermissionError "Permission denied" w
        end
      else if has_char "w" mode then
        match hosting_json w with
        | None =>
            if can_create w
            then (Ret (Handle plus true), set_file (Some (File Empty true true)) w)
            else raise FileNotFoundError "No such file or directory" w
        | Some f =>
            if f_writable f && (negb plus || f_readable f)
            then (Ret (Handle plus true),
                  set_file (Some (File Empty (f_readable f) (f_writable f))) w)
            else raise PermissionError "Permission denied" w
        end
      else if has_char "x" mode then
        match hosting_json w with
        | None =>
            if can_create w
            then (Ret (Handle plus true), set_file (Some (File Empty true true)) w)
            else raise FileNotFoundError "No such file or directory" w
        | Some _ => raise FileExistsError "File exists" w
        end
      else
        match hosting_json w with
        | None =>
            if can_create w
            then (Ret (Handle plus true), set_file (Some (File Empty true true)) w)
            else raise FileNotFoundError "No such file or directory" w
        | Some f =>
            if f_writable f && (negb plus || f_readable f)
            then (Ret (Handle plus true), w)
            else raise PermissionError "Permission denied" w
        end.

(** [os.path.exists(HOSTING_JSON)] *)
Definition path_exists : M bool :=
  fun w => (Ret (match hosting_json w with Some _ => true | None => false end), w).

(** [json.load(config_file)]: reads the whole file through the handle. *)
Definition json_load (h : handle) : M value :=
  fun w =>
    if negb (h_readable h) then raise UnsupportedOperation "not readable" w
    else match hosting_json w with
         | Some (File (Document v) _ _) => (Ret v, w)
         | _ => raise JSONDecodeError "Expecting value" w
         end.

(** [json.dump(v, config_file)].  Into an empty file it leaves the text of
    [v]; written behind text that is already there it leaves text that is
    no single JSON document. *)
Definition json_dump (v : value) (h : handle) : M unit :=
  fun w =>
    if negb (h_writable h) then raise UnsupportedOperation "not writable" w
    else match hosting_json w with
         | Some (File Empty r wr) => (Ret tt, set_file (Some (File (Document v) r wr)) w)
         | Some (File _ r wr) => (Ret tt, set_file (Some (File Malformed r wr)) w)
         | None => raise RuntimeError "file vanished" w
         end.

(** [d.get(k, default)]; only a dict has the method. *)
Definition get_method (d : value) (k : string) (default : value) : M value :=
  match d with
  | VDict items => ret (match items_get k items with Some v => v | None => default end)
  | _ => raise AttributeError "object has no attribute 'get'"
  end.

(** [del d[k]] *)
Definition del_item (d : value) (k : string) : M value :=
  match d with
  | VDict items =>
      match items_get k items with
      | Some _ => ret (VDict (items_del k items))
      | None => raise KeyError k
      end
  | _ => raise TypeError "object does not support item deletion"
  end.

Definition py_assert (b : bool) (msg : string) : M unit :=
  if b then ret tt else raise AssertionError msg.

(** ** The network *)

(** A character outside ASCII. *)
Definition is_ascii_char (c : ascii) : bool := (nat_of_ascii c <? 128)%nat.

Definition ascii_string (s : string) : bool :=
  forallb is_ascii_char (list_ascii_of_string s).

(** Whether [f"Bearer {token}"] is ASCII text.  A token that is a string
    stands in the header as it is; the text of any other value is ASCII
    unless a string inside it is not. *)
Fixpoint ascii_value (v : value) : bool :=
  match v with
  | VStr s => ascii_string s
  | VList l => forallb ascii_value l
  | VDict items =>
      forallb (fun kv => match kv with
                         | (k, v') => ascii_string k && ascii_value v'
                         end) items
  | _ => true
  end.

(** An ASCII control character: what [str.isprintable] turns down. *)
Definition is_control_char (c : ascii) : bool :=
  (nat_of_ascii c <? 32)%nat || Nat.eqb (nat_of_ascii c) 127.

Definition MAX_URL_LENGTH : Z := 65536.

(** Whether httpx takes [f"{endpoint}/{key}"] as a URL: no ASCII control
    character in it, and not longer than [MAX_URL_LENGTH]. *)
Definition url_ok (key : string) : bool :=
  forallb (fun c => negb (is_control_char c)) (list_ascii_of_string key)
  && (Z.of_nat (String.length key) <=? MAX_URL_LENGTH)%Z.

(** httpx builds a request before it sends anything: it parses the URL,
    which raises [InvalidURL], and encodes the header values as ASCII,
    which raises [UnicodeEncodeError], a [ValueError]. *)
Definition build_request (r : request) : M unit :=
  match r with
  | POST_validate_me token =>
      if ascii_value token then ret tt
      else raise UnicodeEncodeError "'ascii' codec can't encode character"
  | DELETE_deployment key token =>
      if negb (url_ok key) then raise InvalidURL "Invalid URL"
      else if ascii_value token then ret tt
      else raise UnicodeEncodeError "'ascii' codec can't encode character"
  end.

(** One call into httpx.  A request that cannot be built raises at once
    and nothing is sent; otherwise the request is recorded and the world's
    next answer comes back, as a status code or as the exception httpx
    raises. *)
Definition httpx_send (r : request) : M Z :=
  fun w =>
    match build_request r w with
    | (Raise e, w0) => (Raise e, w0)
    | (Ret _, _) =>
        let w' := add_request r w in
        match responses w (length (requests w)) with
        | Timeout => raise TimeoutException "timed out" w'
        | NetworkError => raise RequestError "connection failed" w'
        | ProtocolError => raise HTTPError "protocol error" w'
        | Unexpected => raise RuntimeError "unexpected" w'
        | Response status => (Ret status, w')
        end
    end.

(** [response.is_success]: a 2xx status. *)
Definition is_success (status : Z) : bool :=
  (200 <=? status)%Z && (status <=? 299)%Z.

(** [response.raise_for_status()]: every status that is no success raises. *)
Definition raise_for_status (status : Z) : M unit :=
  if is_success status then ret tt else raise HTTPStatusError "error status".

Definition sleep : M unit :=
  fun w => (Ret tt, add_sleep w).

Definition FORBIDDEN : Z := 403.

(** ** The credential store and the token validation *)

(** The constants of [reflex.constants.Hosting] this module reads. *)
Class Hosting := {
  WEB_AUTH_RETRIES : nat;
  DEPLOYMENT_EVENT_MESSAGES_RETRIES : nat;
  END_OF_DEPLOYMENT_MESSAGES : list string
}.

Definition get_existing_access_token : M (value * value) :=
  try_except
    (let* hosting_config := (let* config_file := open_file "r" in json_load config_file) in
     let* access_token := get_method hosting_config "access_token" (VStr "") in
     py_assert (truthy access_token) "no access token found or empty token" ;;
     let* code := get_method hosting_config "code" VNone in
     ret (access_token, code))
    (except_Exception (fun ex => raise Exception "no existing login found")).

Definition validate_token (token : value) : M unit :=
  try_except
    (let* status := httpx_send (POST_validate_me token) in
     (if Z.eqb status FORBIDDEN then raise ValueError "" else ret tt) ;;
     raise_for_status status)
    (fun e =>
       if is_RequestError e then raise Exception "request error"
       else if is_HTTPError e then raise Exception "server error"
       else if is_ValueError e then raise ValueError "access denied"
       else if is_Exception e then raise Exception "internal errors"
       else reraise e).

Definition delete_token_from_config : M unit :=
  let* b := path_exists in
  if b then
    try_except
      (let* config_file := open_file "w" in
       let* hosting_config := json_load config_file in
       let* hosting_config' := del_item hosting_config "access_token" in
       json_dump hosting_config' config_file)
      (except_Exception (fun ex => ret tt))
  else ret tt.

Definition save_token_to_config (token : string) (code : option string) : M unit :=
  let hosting_config :=
    match code with
    | Some c => if negb (String.eqb c "")
                then [("access_token", VStr token); ("code", VStr c)]
                else [("access_token", VStr token)]
    | None => [("access_token", VStr token)]
    end in
  try_except
    (let* config_file := open_file "w" in json_dump (VDict hosting_config) config_file)
    (except_Exception (fun ex => ret tt)).

Definition authenticated_token : M value :=
  try_except
    (let* tc := get_existing_access_token in
     let token := fst tc in
     if negb (truthy token) then ret VNone
     else (validate_token token ;; ret token))
    (except_Exception (fun ex =>
       try_except
         (let* config_file := open_file "rw" in
          let* hosting_config := json_load config_file in
          let* hosting_config' := del_item hosting_config "access_token" in
          json_dump hosting_config' config_file)
         (except_Exception (fun ex' => ret tt)) ;;
       ret VNone)).

(** [validate_token_with_retries]: [validate_loop] is the loop over
    [range(constants.Hosting.WEB_AUTH_RETRIES)], then [return False].  One
    pass of the body either returns from the function ([Some]) or falls
    through to the next pass ([None]). *)
Definition validate_attempt (access_token : value) : M (option bool) :=
  try_except
    (validate_token access_token ;; ret (Some true))
    (fun e =>
       if is_ValueError e then
         delete_token_from_config ;; raise SystemExit "Access denied"
       else if is_Exception e then sleep ;; ret None
       else reraise e).

Fixpoint validate_loop (retries : nat) (access_token : value) : M bool :=
  match retries with
  | O => ret false
  | S n =>
      let* r := validate_attempt access_token in
      match r with
      | Some b => ret b
      | None => validate_loop n access_token
      end
  end.

Definition validate_token_with_retries `{Hosting} (access_token : value) : M bool :=
  validate_loop WEB_AUTH_RETRIES access_token.

(** ** Control-plane operations *)

Definition delete_deployment (key : string) : M unit :=
  let* token := authenticated_token in
  if negb (truthy token) then raise Exception "not authenticated"
  else if String.eqb key "" then
    raise ValueError "Valid key is required for the delete."
  else
    try_except
      (let* status := httpx_send (DELETE_deployment key token) in
       raise_for_status status)
      (fun e =>
         if is_TimeoutException e then raise Exception "request timeout"
         else if is_HTTPError e then raise Exception "internal errors"
         else if is_Exception e then raise Exception "internal errors"
         else reraise e).

(** ** The pydantic models and their root validators *)

Record DeploymentPrepInfo := {
  key : string;
  api_url : string;
  deploy_url : string
}.

Record DeploymentPrepareResponse := {
  app_prefix : string;
  reply : option DeploymentPrepInfo;
  existing : option (list DeploymentPrepInfo);
  suggestion : option DeploymentPrepInfo
}.

(** [not values.get("existing")]: absent, [None] or the empty list. *)
Definition not_existing (e : option (list DeploymentPrepInfo)) : bool :=
  match e with
  | None | Some [] => true
  | Some (_ :: _) => false
  end.

Definition ensure_at_least_one_deploy_params (values : DeploymentPrepareResponse)
  : result DeploymentPrepareResponse :=
  if bool_decide (reply values = None)
     && not_existing (existing values)
     && bool_decide (suggestion values = None)
  then Raise (Exn ValueError
         "At least one set of params for deploy is required from control plane.")
  else Ret values.

(** [DeploymentPrepareResponse(app_prefix=..., reply=..., suggestion=...,
    existing=...)]: the root validator runs first; what it raises reaches
    the caller as a [ValidationError]. *)
Definition new_DeploymentPrepareResponse
    (app_prefix : string) (reply : option DeploymentPrepInfo)
    (suggestion : option DeploymentPrepInfo)
    (existing : option (list DeploymentPrepInfo))
  : result DeploymentPrepareResponse :=
  match ensure_at_least_one_deploy_params
          {| app_prefix := app_prefix; reply := reply;
             existing := existing; suggestion := suggestion |} with
  | Ret values => Ret values
  | Raise e => Raise (Exn ValidationError (exn_msg e))
  end.

Record SiteStatus := {
  frontend_url : option string;
  backend_url : option string;
  reachable : bool;
  updated_at : option string
}.

Definition ensure_one_of_urls (values : SiteStatus) : result SiteStatus :=
  if bool_decide (frontend_url values = None)
     && bool_decide (backend_url values = None)
  then Raise (Exn ValueError "At least one of the URLs is required.")
  else Ret values.

Definition new_SiteStatus
    (frontend_url backend_url : option string) (reachable : bool)
    (updated_at : option string) : result SiteStatus :=
  match ensure_one_of_urls
          {| frontend_url := frontend_url; backend_url := backend_url;
             reachable := reachable; updated_at := updated_at |} with
  | Ret values => Ret values
  | Raise e => Raise (Exn ValidationError (exn_msg e))
  end.

(** ** Strings *)

Definition in_range (lo hi : nat) (c : ascii) : bool :=
  (lo <=? nat_of_ascii c)%nat && (nat_of_ascii c <=? hi)%nat.

Definition is_upper (c : ascii) : bool := in_range 65 90 c.
Definition is_lower (c : ascii) : bool := in_range 97 122 c.
Definition is_digit (c : ascii) : bool := in_range 48 57 c.
Definition is_underscore (c : ascii) : bool := Ascii.eqb c "_".
Definition is_newline (c : ascii) : bool := Ascii.eqb c "010".

(** [[a-zA-Z_]] and [[a-zA-Z0-9_]] *)
Definition name_start (c : ascii) : bool :=
  is_lower c || is_upper c || is_underscore c.
Definition name_char (c : ascii) : bool :=
  is_lower c || is_upper c || is_digit c || is_underscore c.

(** [[a-zA-Z0-9_]*$] at the current position.  [$] matches at the end of
    the string and also just before a newline that ends the string. *)
Fixpoint match_name_tail (s : string) : bool :=
  match s with
  | EmptyString => true
  | String c rest =>
      if name_char c then match_name_tail rest
      else is_newline c && String.eqb rest ""
  end.

(** [re.match(r"^[a-zA-Z_][a-zA-Z0-9_]*$", s)] is a match. *)
Definition re_match_env_name (s : string) : bool :=
  match s with
  | EmptyString => false
  | String c rest => name_start c && match_name_tail rest
  end.

(** [s.split(sep, maxsplit=1)] for a one-character separator. *)
Fixpoint split_first (sep : ascii) (s : string) : option (string * string) :=
  match s with
  | EmptyString => None
  | String c rest =>
      if Ascii.eqb c sep then Some (EmptyString, rest)
      else match split_first sep rest with
           | Some (a, b) => Some (String c a, b)
           | None => None
           end
  end.

Definition split_maxsplit1 (sep : ascii) (s : string) : list string :=
  match split_first sep s with
  | Some (a, b) => [a; b]
  | None => [s]
  end.

(** [s.lower()] is Python's own and follows the Unicode tables; it is
    taken as given. *)
Class Text := { lower : string -> string }.

(** What [s.lower()] is on ASCII text; it serves in the examples. *)
Definition lower_ascii (c : ascii) : ascii :=
  if is_upper c then ascii_of_nat (nat_of_ascii c + 32) else c.

Fixpoint ascii_lower (s : string) : string :=
  match s with
  | EmptyString => EmptyString
  | String c rest => String (lower_ascii c) (ascii_lower rest)
  end.

(** [sub in s] *)
Fixpoint contains (sub s : string) : bool :=
  String.prefix sub s
  || match s with
     | EmptyString => false
     | String _ rest => contains sub rest
     end.

(** ** Environment variables *)

Fixpoint process_envs_from (processed_envs : gmap string string) (envs : list string)
  : result (gmap string string) :=
  match envs with
  | [] => Ret processed_envs
  | env :: rest =>
      let kv := split_maxsplit1 "=" env in
      if negb (Nat.eqb (length kv) 2) then
        Raise (Exn SystemExit "Invalid env format: should be <key>=<value>.")
      else
        let k := nth 0 kv "" in
        let v := nth 1 kv "" in
        if negb (re_match_env_name k) then
          Raise (Exn SystemExit
            "Invalid env name: should start with a letter or underscore, followed by letters, digits, or underscores.")
        else process_envs_from (<[k := v]> processed_envs) rest
  end.

Definition process_envs (envs : list string) : result (gmap string string) :=
  process_envs_from ∅ envs.

(** ** Timestamps and the deploy-milestone stream *)

(** The part of Python's [datetime] this module calls.  [None] stands for
    a call that raises. *)
Class Datetime := {
  datetime : Type;
  fromisoformat : string -> option datetime;
  astimezone : datetime -> option datetime;
  strftime : datetime -> string -> option string;
  isoformat : datetime -> string
}.

Definition library_call {A} (r : option A) (c : exn_class) (msg : string) : result A :=
  match r with
  | Some a => Ret a
  | None => Raise (Exn c msg)
  end.

Definition LOCAL_FORMAT : string := "%Y-%m-%d %H:%M:%S.%f %Z".

Definition convert_to_local_time `{Datetime} (iso_timestamp : string) : result string :=
  let body :=
    match library_call (fromisoformat iso_timestamp) ValueError "Invalid isoformat string" with
    | Raise e => Raise e
    | Ret dt =>
        match library_call (astimezone dt) RuntimeError "astimezone" with
        | Raise e => Raise e
        | Ret local_dt => library_call (strftime local_dt LOCAL_FORMAT) ValueError "strftime"
        end
    end in
  match body with
  | Ret s => Ret s
  | Raise ex => if is_Exception ex then Ret iso_timestamp else Raise ex
  end.

(** [convert_to_local_time] on whatever the server sent as timestamp: on a
    value that is no string [fromisoformat] raises [TypeError], which the
    function catches, and the value comes back as it is. *)
Definition convert_value_to_local_time `{Datetime} (v : value) : result value :=
  match v with
  | VStr s => match convert_to_local_time s with
              | Ret s' => Ret (VStr s')
              | Raise e => Raise e
              end
  | _ => Ret v
  end.

Definition lift {A} (r : result A) : M A := fun w => (r, w).

(** [row_json[k]] on a dict *)
Definition get_item (items : list (string * value)) (k : string) : M value :=
  match items_get k items with
  | Some v => ret v
  | None => raise KeyError k
  end.

(** [" | ".join([a, b])] *)
Definition join_bar (a b : value) : M string :=
  match a, b with
  | VStr x, VStr y => ret (x ++ " | " ++ y)
  | _, _ => raise TypeError "sequence item: expected str instance"
  end.

Definition console_print (line : string) : M unit :=
  fun w => (Ret tt, add_line line w).

(** [json.loads(await ws.recv())] *)
Definition ws_recv_json : M value :=
  fun w =>
    let w' := add_received w in
    match frames w (received w) with
    | Closed => raise ConnectionClosed "connection closed" w'
    | BadJson => raise JSONDecodeError "Expecting value" w'
    | Frame row_json => (Ret row_json, w')
    end.

(** [any(msg in message.lower() for msg in END_OF_DEPLOYMENT_MESSAGES)] *)
Definition is_end_of_deployment `{Text} `{Hosting} (message : string) : bool :=
  existsb (fun msg => contains msg (lower message)) END_OF_DEPLOYMENT_MESSAGES.

(** The branch of the loop body for a frame that is a non-empty object:
    print timestamp and message, then test the message.  [true] when the
    body executes [return]. *)
Definition milestone_event `{Datetime} `{Text} `{Hosting} (row_json : list (string * value))
  : M bool :=
  let* timestamp := get_item row_json "timestamp" in
  let* local := lift (convert_value_to_local_time timestamp) in
  let* message := get_item row_json "message" in
  let* line := join_bar local message in
  console_print line ;;
  match message with
  | VStr m => ret (is_end_of_deployment m)
  | _ => raise AttributeError "object has no attribute 'lower'"
  end.

(** One pass of the loop body. *)
Definition milestone_step `{Datetime} `{Text} `{Hosting} : M bool :=
  let* row_json := ws_recv_json in
  match row_json with
  | VDict (item :: items) => milestone_event (item :: items)
  | _ => ret false
  end.

(** [for _ in range(budget): ...], with the [return] inside it. *)
Fixpoint milestone_loop `{Datetime} `{Text} `{Hosting} (budget : nat) : M unit :=
  match budget with
  | O => ret tt
  | S n =>
      let* stop := milestone_step in
      if stop then ret tt else milestone_loop n
  end.

Definition ws_connect : M unit :=
  fun w => if ws_connects w then (Ret tt, w)
           else raise RuntimeError "cannot connect" w.

Definition display_deploy_milestones `{Datetime} `{Text} `{Hosting}
    (key : string) (from_iso_timestamp : datetime) : M unit :=
  if String.eqb key "" then
    raise ValueError "Non-empty key is required for querying deploy status."
  else
    let* token := authenticated_token in
    if negb (truthy token) then raise Exception "not authenticated"
    else
      try_except
        (lift (library_call (astimezone from_iso_timestamp) RuntimeError "astimezone") ;;
         ws_connect ;;
         milestone_loop DEPLOYMENT_EVENT_MESSAGES_RETRIES)
        (except_Exception (fun ex => ret tt)).

(** ** Notions the statements use *)

(** The one failure [get_existing_access_token] reports. *)
Definition NO_EXISTING_LOGIN : exn := Exn Exception "no existing login found".

(** The three ways of having no usable credential on disk: no file, a file
    that is not JSON, a JSON object without a non-empty [access_token]. *)
Inductive no_credential (w : world) : Prop :=
  | credential_file_absent :
      hosting_json w = None -> no_credential w
  | credential_file_malformed f :
      hosting_json w = Some f ->
      f_content f = Malformed \/ f_content f = Empty ->
      no_credential w
  | credential_token_missing f items :
      hosting_json w = Some f ->
      f_content f = Document (VDict items) ->
      truthy (default (VStr "") (items_get "access_token" items)) = false ->
      no_credential w.

(** The server's answer to the next validation request, as
    [validate_token] reads it. *)
Inductive verdict := Accepted | AccessDenied | Transient.

Definition verdict_of (o : http_outcome) : verdict :=
  match o with
  | Response status =>
      if Z.eqb status FORBIDDEN then AccessDenied
      else if is_success status then Accepted
      else Transient
  | _ => Transient
  end.

(** How many of the three deploy parameter sets a response carries. *)
Definition populated (r : DeploymentPrepareResponse) : nat :=
  (match reply r with Some _ => 1 | None => 0 end)
  + (if not_existing (existing r) then 0 else 1)
  + (match suggestion r with Some _ => 1 | None => 0 end).

(** The names the specification allows: all of the string matches
    [[A-Za-z_][A-Za-z0-9_]*]. *)
Definition spec_env_name (s : string) : bool :=
  match s with
  | EmptyString => false
  | String c rest => name_start c && forallb name_char (list_ascii_of_string rest)
  end.

(** An entry the code turns down: no ["="], or a name the pattern does not
    match. *)
Definition rejected (env : string) : bool :=
  match split_first "=" env with
  | None => true
  | Some (k, _) => negb (re_match_env_name k)
  end.

(** A frame the milestone loop skips: JSON that is no non-empty object. *)
Definition heartbeat (f : frame) : Prop :=
  match f with
  | Frame (VDict (_ :: _)) => False
  | Frame _ => True
  | _ => False
  end.

(** A frame that is an event with this message and a text timestamp. *)
Definition event_with (message : string) (f : frame) : Prop :=
  exists items ts,
    f = Frame (VDict items)
    /\ items_get "timestamp" items = Some (VStr ts)
    /\ items_get "message" items = Some (VStr message).

(** A frame after which the milestone loop goes on. *)
Definition keeps_streaming `{Text} `{Hosting} (f : frame) : Prop :=
  heartbeat f
  \/ exists message, event_with message f /\ is_end_of_deployment message = false.

(** The conversion itself, when nothing raises: parse, move to the local
    zone, format. *)
Definition local_rendering `{Datetime} (iso_timestamp : string) : option string :=
  match fromisoformat iso_timestamp with
  | Some dt =>
      match astimezone dt with
      | Some local_dt => strftime local_dt LOCAL_FORMAT
      | None => None
      end
  | None => None
  end.


(** ** Concrete worlds and libraries for the examples *)

Definition stored_credential : value :=
  VDict [("access_token", VStr "tok"); ("code", VStr "inv")].

Definition silent_stream : nat -> frame := fun _ => Closed.

(** A stored credential and a control plane that answers every request
    with the given outcome. *)
Definition logged_in (answer : http_outcome) : world :=
  World (Some (File (Document stored_credential) true true))
        (fun _ => answer) [] 0 true silent_stream 0 [] true.

Definition logged_out : world :=
  World None (fun _ => Response 200) [] 0 true silent_stream 0 [] true.

#[local] Instance example_hosting : Hosting := {|
  WEB_AUTH_RETRIES := 3;
  DEPLOYMENT_EVENT_MESSAGES_RETRIES := 3;
  END_OF_DEPLOYMENT_MESSAGES := ["deploy success"]
|}.

(** [str.lower] as it is on ASCII text. *)
#[local] Instance example_text : Text := {| lower := ascii_lower |}.

(** A stand-in for [datetime] that accepts exactly the text ["2023"]. *)
#[local] Instance example_datetime : Datetime := {|
  datetime := string;
  fromisoformat := fun s => if String.eqb s "2023" then Some s else None;
  astimezone := fun d => Some d;
  strftime := fun d _ => Some (d ++ " UTC");
  isoformat := fun d => d
|}.

Definition event (message : string) : frame :=
  Frame (VDict [("timestamp", VStr "2023"); ("message", VStr message)]).

Definition streaming (fs : nat -> frame) : world :=
  World None (fun _ => Response 200) [] 0 true fs 0 [] true.

Definition example_info : DeploymentPrepInfo :=
  {| key := "app"; api_url := "https://api"; deploy_url := "https://app" |}.

Definition newline : string := String "010" EmptyString.

(** ** More of the module: log tailing and the environment prompt *)

(** [row_json[k] = v] on a dict: an existing key keeps its place. *)
Fixpoint items_set (k : string) (v : value) (items : list (string * value))
  : list (string * value) :=
  match items with
  | [] => [(k, v)]
  | (k', v') :: rest =>
      if String.eqb k k' then (k', v) :: rest else (k', v') :: items_set k v rest
  end.

Inductive LogType := APP_LOG | BUILD_LOG | DEPLOY_LOG | ALL_LOG.

Definition LogType_value (t : LogType) : string :=
  match t with
  | APP_LOG => "app"
  | BUILD_LOG => "build"
  | DEPLOY_LOG => "deploy"
  | ALL_LOG => "all"
  end.

(** [" | ".join(values)]: every item has to be a string. *)
Fixpoint join_values (values : list value) : M string :=
  match values with
  | [] => ret ""
  | VStr x :: rest =>
      match rest with
      | [] => ret x
      | _ :: _ => let* tail := join_values rest in ret (x ++ " | " ++ tail)
      end
  | _ :: _ => raise TypeError "sequence item: expected str instance"
  end.

(** The branch of the [get_logs] loop body for a non-empty object: the
    timestamp, if there is one, is replaced by its local form, and the
    values are printed on one line. *)
Definition log_row `{Datetime} (row_json : list (string * value)) : M unit :=
  let* row_json' :=
    match items_get "timestamp" row_json with
    | Some timestamp =>
        let* local := lift (convert_value_to_local_time timestamp) in
        ret (items_set "timestamp" local row_json)
    | None => ret row_json
    end in
  let* line := join_values (map snd row_json') in
  console_print line.

Definition get_logs_step `{Datetime} : M unit :=
  let* row_json := ws_recv_json in
  match row_json with
  | VDict (item :: items) => log_row (item :: items)
  | _ => ret tt
  end.

(** [while True: ...].  The loop has no exit of its own; [fuel] bounds how
    many passes are observed, and [false] says the loop was still running
    when the fuel ran out. *)
Fixpoint get_logs_loop `{Datetime} (fuel : nat) : M bool :=
  match fuel with
  | O => ret false
  | S n => get_logs_step ;; get_logs_loop n
  end.

Definition LOG_SERVER_DISCONNECTED : string := "Log server disconnected ...".
Definition LOG_SERVER_NOTE : string :=
  "Note that the server has limit to only stream logs for several minutes to conserve resources".

(** [get_logs]: [true] when the function has returned, [false] when it was
    still streaming after [fuel] frames. *)
Definition get_logs `{Datetime} (fuel : nat)
    (key : string) (log_type : LogType) (from_iso_timestamp : option datetime)
  : M bool :=
  let* token := authenticated_token in
  if negb (truthy token) then raise Exception "not authenticated"
  else if String.eqb key "" then
    raise ValueError "Valid key is required for querying logs."
  else
    try_except
      (match from_iso_timestamp with
       | Some ts =>
           lift (library_call (astimezone ts) RuntimeError "astimezone") ;; ret tt
       | None => ret tt
       end ;;
       ws_connect ;;
       get_logs_loop fuel)
      (except_Exception (fun ex =>
         console_print LOG_SERVER_DISCONNECTED ;;
         console_print LOG_SERVER_NOTE ;;
         ret true)).

(** [console.ask(prompt)]: the next answer of the user, a string or
    [None]; at the end of the input the call raises. *)
Definition console_ask (answers : list (option string))
  : M (option string * list (option string)) :=
  match answers with
  | a :: rest => ret (a, rest)
  | [] => raise RuntimeError "EOF when reading a line"
  end.

(** [not env_key] *)
Definition no_answer (a : option string) : bool :=
  match a with
  | None => true
  | Some s => String.eqb s ""
  end.

(** [f"{env_key}={env_value}"]; [None] is formatted as the text "None". *)
Definition format_answer (a : option string) : string :=
  match a with
  | Some s => s
  | None => "None"
  end.

(** The [while] loop of [interactive_prompt_for_envs]: one pass asks for a
    name and, unless the name is empty, for a value.  The answers not yet
    read come back with the result. *)
Fixpoint prompt_for_envs_loop (answers : list (option string)) (envs : list string)
  : M (list string * list (option string)) :=
  match answers with
  | [] => raise RuntimeError "EOF when reading a line"
  | env_key :: rest =>
      if no_answer env_key then
        (if match envs with [] => false | _ :: _ => true end
         then console_print "Finished adding envs."
         else console_print "No envs added. Continuing ...") ;;
        ret (envs, rest)
      else
        match rest with
        | [] => raise RuntimeError "EOF when reading a line"
        | env_value :: rest' =>
            prompt_for_envs_loop rest'
              (envs ++ [(format_answer env_key ++ "=" ++ format_answer env_value)%string])%list
        end
  end.

Definition interactive_prompt_for_envs (answers : list (option string))
  : M (list string * list (option string)) :=
  console_print "Environment variables ..." ;;
  prompt_for_envs_loop answers [].

(** ** More notions for the statements *)



(** An entry of the form NAME=VALUE whose name the pattern accepts. *)
Definition well_formed_entry (env : string) : Prop :=
  exists k v, env = k ++ "=" ++ v /\ re_match_env_name k = true.

(** The entry that names [k] with value [v]. *)
Definition entry (kv : string * string) : string := fst kv ++ "=" ++ snd kv.

(** The value of the last entry that names [k]. *)
Fixpoint last_value (k : string) (envs : list string) : option string :=
  match envs with
  | [] => None
  | env :: rest =>
      match last_value k rest with
      | Some v => Some v
      | None =>
          match split_first "=" env with
          | Some (k', v) => if String.eqb k k' then Some v else None
          | None => None
          end
      end
  end.

(** The line the milestone loop prints for an event. *)
Definition milestone_line `{Datetime} (f : frame) : list string :=
  match f with
  | Frame (VDict items) =>
      match items_get "timestamp" items, items_get "message" items with
      | Some (VStr ts), Some (VStr m) =>
          [default ts (local_rendering ts) ++ " | " ++ m]
      | _, _ => []
      end
  | _ => []
  end.

(** The lines for the frames [start], ..., [start + n - 1] of a stream. *)
Fixpoint lines_from {A} (line : frame -> list A) (fs : nat -> frame) (start n : nat)
  : list A :=
  match n with
  | O => []
  | S m => (line (fs start) ++ lines_from line fs (S start) m)%list
  end.

(** A frame that ends the streaming: the connection is gone or the frame
    is not JSON. *)
Definition broken (f : frame) : Prop := f = Closed \/ f = BadJson.

(** The texts of a list of values, when all of them are strings. *)
Fixpoint texts (values : list value) : option (list string) :=
  match values with
  | [] => Some []
  | VStr x :: rest =>
      match texts rest with
      | Some xs => Some (x :: xs)
      | None => None
      end
  | _ :: _ => None
  end.

Fixpoint join_bars (xs : list string) : string :=
  match xs with
  | [] => ""
  | [x] => x
  | x :: rest => x ++ " | " ++ join_bars rest
  end.

(** The row of a log frame as [get_logs] prints it: the values in their
    order, the timestamp in local form. *)
Definition localized `{Datetime} (items : list (string * value)) : list (string * value) :=
  match items_get "timestamp" items with
  | Some (VStr ts) => items_set "timestamp" (VStr (default ts (local_rendering ts))) items
  | _ => items
  end.

Definition log_line `{Datetime} (f : frame) : list string :=
  match f with
  | Frame (VDict (item :: items)) =>
      match texts (map snd (localized (item :: items))) with
      | Some xs => [join_bars xs]
      | None => []
      end
  | _ => []
  end.

(** A frame [get_logs] gets past: a heartbeat, or a row of strings. *)
Definition loggable `{Datetime} (f : frame) : Prop :=
  heartbeat f
  \/ exists items, f = Frame (VDict items)
                   /\ is_Some (texts (map snd (localized items))).

(** A world with a stored credential the server accepts and this log
    stream. *)
Definition tailing (fs : nat -> frame) : world :=
  World (Some (File (Document stored_credential) true true))
        (fun _ => Response 200) [] 0 true fs 0 [] true.

Definition read_only_login : world :=
  World (Some (File (Document stored_credential) true false))
        (fun _ => Response 403) [] 0 true silent_stream 0 [] true.

(** How [delete_deployment] ends, by the answer to its DELETE request. *)
Definition delete_result (o : http_outcome) : result unit :=
  match o with
  | Response status =>
      if is_success status then Ret tt else Raise (Exn Exception "internal errors")
  | Timeout => Raise (Exn Exception "request timeout")
  | _ => Raise (Exn Exception "internal errors")
  end.

(** [w'] differs from [w] at most in the frames received and the lines
    printed. *)
Definition stream_only (w w' : world) : Prop :=
  hosting_json w' = hosting_json w /\ responses w' = responses w
  /\ requests w' = requests w /\ slept w' = slept w
  /\ ws_connects w' = ws_connects w /\ frames w' = frames w.

(** A frame that ends [get_logs]: the connection is gone, the frame is not
    JSON, or it is a row with a value that is no string. *)
Definition ends_tailing `{Datetime} (f : frame) : Prop :=
  broken f
  \/ exists item items,
       f = Frame (VDict (item :: items))
       /\ texts (map snd (localized (item :: items))) = None.

(** The answers of a user who enters these names and values in turn. *)
Definition answers_of (pairs : list (string * string)) : list (option string) :=
  concat (map (fun kv => [Some (fst kv); Some (snd kv)]) pairs).

(** [from_iso_timestamp] is absent or can be moved to the local zone. *)
Definition start_ok `{Datetime} (from_iso_timestamp : option datetime) : Prop :=
  match from_iso_timestamp with
  | Some ts => astimezone ts <> None
  | None => True
  end.

Definition log_row_example : frame :=
  Frame (VDict [("timestamp", VStr "2023"); ("message", VStr "started")]).

(** The token "té": its second character lies outside ASCII. *)
Definition accented_token : string := String "t" (String "233" EmptyString).

(** A stored credential with that token and a control plane that accepts
    every request. *)
Definition accented_login : world :=
  World (Some (File (Document (VDict [("access_token", VStr accented_token);
                                      ("code", VStr "inv")])) true true))
        (fun _ => Response 200) [] 0 true silent_stream 0 [] true.






(** * Theorems *)

(** ** The credential store *)

Ltac unfold_py :=
  unfold bind, try_except, except_Exception, ret, raise, reraise, lift,
    py_assert, path_exists in *.

Lemma open_rw_rejected w :
  open_file "rw" w
  = (Raise (Exn ValueError "must have exactly one of create/read/write/append mode"), w).
Proof. reflexivity. Qed.

Lemma open_r w :
  open_file "r" w
  = match hosting_json w with
    | None => (Raise (Exn FileNotFoundError "No such file or directory"), w)
    | Some f =>
        if f_readable f then (Ret (Handle true false), w)
        else (Raise (Exn PermissionError "Permission denied"), w)
    end.
Proof.
  unfold open_file; cbn. destruct (hosting_json w) as [f|]; [|reflexivity].
  destruct (f_readable f); reflexivity.
Qed.

Lemma open_w w :
  open_file "w" w
  = match hosting_json w with
    | None =>
        if can_create w
        then (Ret (Handle false true), set_file (Some (File Empty true true)) w)
        else (Raise (Exn FileNotFoundError "No such file or directory"), w)
    | Some f =>
        if f_writable f
        then (Ret (Handle false true),
              set_file (Some (File Empty (f_readable f) (f_writable f))) w)
        else (Raise (Exn PermissionError "Permission denied"), w)
    end.
Proof.
  unfold open_file; cbn. destruct (hosting_json w) as [f|]; [|reflexivity].
  destruct (f_writable f); reflexivity.
Qed.

Ltac unfold_load :=
  unfold get_existing_access_token; unfold_py; rewrite open_r;
  unfold json_load, get_method; unfold_py; cbn.

(** Reading the credential never changes the world. *)
Lemma get_existing_access_token_world w :
  snd (get_existing_access_token w) = w.
Proof.
  unfold_load.
  destruct (hosting_json w) as [[c r wr]|] eqn:Ef; cbn; [|reflexivity].
  destruct r; cbn; [|reflexivity].
  rewrite Ef; cbn. destruct c as [| |v]; cbn; try reflexivity.
  destruct v; cbn; try reflexivity.
  destruct (truthy _); reflexivity.
Qed.

(** What it returns when it returns: the fields of the stored object. *)
Lemma get_existing_access_token_ret w tok code :
  fst (get_existing_access_token w) = Ret (tok, code) ->
  truthy tok = true
  /\ exists f items,
       hosting_json w = Some f /\ f_content f = Document (VDict items)
       /\ tok = default (VStr "") (items_get "access_token" items)
       /\ code = default VNone (items_get "code" items).
Proof.
  unfold_load.
  destruct (hosting_json w) as [[c r wr]|] eqn:Ef; cbn; [|discriminate].
  destruct r; cbn; [|discriminate].
  rewrite Ef; cbn. destruct c as [| |v]; cbn; try discriminate.
  destruct v; cbn; try discriminate.
  destruct (truthy _) eqn:Et; cbn; [|discriminate].
  intros E; inversion E; subst. split.
  - revert Et. destruct (items_get "access_token" items); auto.
  - exists (File (Document (VDict items)) true wr), items.
    repeat split; destruct (items_get _ items); reflexivity.
Qed.

Lemma get_existing_access_token_raise w e :
  fst (get_existing_access_token w) = Raise e -> e = NO_EXISTING_LOGIN.
Proof.
  unfold NO_EXISTING_LOGIN. unfold_load.
  destruct (hosting_json w) as [[c r wr]|] eqn:Ef; cbn; [|congruence].
  destruct r; cbn; [|congruence].
  rewrite Ef; cbn. destruct c as [| |v]; cbn; try congruence.
  destruct v; cbn; try congruence.
  destruct (truthy _); cbn; congruence.
Qed.

(** C9: loading the persisted credential fails with one and the same
    exception, [Exception("no existing login found")], when the file is
    absent, when its content is not JSON and when the [access_token] field
    is absent or empty; the world is left as it was, and no failure of the
    load is any other exception. *)
Theorem get_existing_access_token_no_login w :
  no_credential w ->
  get_existing_access_token w = (Raise NO_EXISTING_LOGIN, w)
  /\ (forall w' e, fst (get_existing_access_token w') = Raise e -> e = NO_EXISTING_LOGIN).
Proof.
  intros Hno. split; [|intros w' e; apply get_existing_access_token_raise].
  rewrite (surjective_pairing (get_existing_access_token w)).
  rewrite get_existing_access_token_world. f_equal.
  destruct (fst (get_existing_access_token w)) as [[tok code]|e] eqn:E.
  - exfalso. apply get_existing_access_token_ret in E.
    destruct E as (Ht & f & items & Hf & Hc & -> & _).
    destruct Hno as [Habs | f' Hf' [Hm | Hm] | f' items' Hf' Hc' Hfalse];
      rewrite Hf in *; simplify_eq; congruence.
  - f_equal. eapply get_existing_access_token_raise; eauto.
Qed.

Lemma get_existing_access_token_no_login_witness :
  get_existing_access_token logged_out = (Raise NO_EXISTING_LOGIN, logged_out)
  /\ (forall w' e, fst (get_existing_access_token w') = Raise e -> e = NO_EXISTING_LOGIN).
Proof.
  apply (get_existing_access_token_no_login logged_out).
  apply credential_file_absent. reflexivity.
Defined.

(** ** Token validation *)

(** A token whose text is not ASCII never becomes a request: httpx raises
    while it builds the header, the [except ValueError] clause takes that
    for the rejection, and nothing is sent. *)
Lemma validate_token_unsendable tok w :
  ascii_value tok = false ->
  validate_token tok w = (Raise (Exn ValueError "access denied"), w).
Proof.
  intros Ha. unfold validate_token, httpx_send, build_request. unfold_py.
  rewrite Ha. reflexivity.
Qed.

Lemma validate_token_world tok w :
  snd (validate_token tok w)
  = if ascii_value tok then add_request (POST_validate_me tok) w else w.
Proof.
  destruct (ascii_value tok) eqn:Ha; [|rewrite validate_token_unsendable; auto].
  unfold validate_token, httpx_send, build_request, raise_for_status, FORBIDDEN.
  unfold_py. rewrite Ha.
  destruct (responses w (length (requests w))) as [| | | |status]; cbn; try reflexivity.
  destruct (Z.eqb status 403); cbn; [reflexivity|].
  destruct (is_success status); reflexivity.
Qed.

Lemma validate_token_file tok w :
  hosting_json (snd (validate_token tok w)) = hosting_json w.
Proof. rewrite validate_token_world. destruct (ascii_value tok); reflexivity. Qed.

(** The three ways a validation that is sent ends, by the server's answer. *)
Lemma validate_token_result tok w :
  ascii_value tok = true ->
  match verdict_of (responses w (length (requests w))) with
  | Accepted => fst (validate_token tok w) = Ret tt
  | AccessDenied => fst (validate_token tok w) = Raise (Exn ValueError "access denied")
  | Transient => exists msg, fst (validate_token tok w) = Raise (Exn Exception msg)
  end.
Proof.
  intros Ha.
  unfold validate_token, httpx_send, build_request, raise_for_status, verdict_of,
    FORBIDDEN.
  unfold_py. rewrite Ha.
  destruct (responses w (length (requests w))) as [| | | |status]; cbn; eauto.
  destruct (Z.eqb status 403); cbn; [reflexivity|].
  destruct (is_success status); cbn; eauto.
Qed.

Lemma validate_token_raises_Exception tok w e :
  fst (validate_token tok w) = Raise e -> is_Exception e = true.
Proof.
  destruct (ascii_value tok) eqn:Ha.
  - pose proof (validate_token_result tok w Ha) as H.
    destruct (verdict_of _); [congruence| |destruct H as [msg H]];
      rewrite H; intros E; inversion E; reflexivity.
  - rewrite (validate_token_unsendable _ _ Ha). intros E; inversion E; reflexivity.
Qed.

(** [authenticated_token], case by case.  The clean-up in its handler opens
    the file with mode ["rw"], which [open] rejects, so the handler never
    reaches the file. *)
Lemma authenticated_token_cases w :
  authenticated_token w
  = match fst (get_existing_access_token w) with
    | Raise _ => (Ret VNone, w)
    | Ret (tok, _) =>
        match fst (validate_token tok w) with
        | Ret _ => (Ret tok, snd (validate_token tok w))
        | Raise _ => (Ret VNone, snd (validate_token tok w))
        end
    end.
Proof.
  unfold authenticated_token. unfold_py.
  rewrite (surjective_pairing (get_existing_access_token w)).
  rewrite get_existing_access_token_world.
  destruct (fst (get_existing_access_token w)) as [[tok code]|e] eqn:E; cbn.
  - apply get_existing_access_token_ret in E. destruct E as [-> _]; cbn.
    destruct (validate_token tok w) as [[[]|e] w1] eqn:Ev; cbn; [reflexivity|].
    assert (He : is_Exception e = true).
    { apply (validate_token_raises_Exception tok w). rewrite Ev. reflexivity. }
    rewrite He. reflexivity.
  - apply get_existing_access_token_raise in E. subst e.
    reflexivity.
Qed.

Lemma authenticated_token_file w :
  hosting_json (snd (authenticated_token w)) = hosting_json w.
Proof.
  rewrite authenticated_token_cases.
  destruct (fst (get_existing_access_token w)) as [[tok code]|e]; [|reflexivity].
  destruct (fst (validate_token tok w)); apply validate_token_file.
Qed.

Lemma authenticated_token_returns w :
  exists v, fst (authenticated_token w) = Ret v.
Proof.
  rewrite authenticated_token_cases.
  destruct (fst (get_existing_access_token w)) as [[tok code]|e]; [|eauto].
  destruct (fst (validate_token tok w)); eauto.
Qed.

(** [delete_token_from_config] never raises; an existing writable file
    comes out empty, because mode ["w"] truncates it and the handle it
    gives cannot be read. *)
Lemma delete_token_from_config_cases w :
  delete_token_from_config w
  = (Ret tt,
     match hosting_json w with
     | Some f =>
         if f_writable f
         then set_file (Some (File Empty (f_readable f) (f_writable f))) w
         else w
     | None => w
     end).
Proof.
  unfold delete_token_from_config. unfold_py.
  destruct (hosting_json w) as [f|] eqn:Ef; [|reflexivity].
  rewrite open_w, Ef. destruct (f_writable f); reflexivity.
Qed.

(** One pass of the retry loop for a token that can be sent: a request is
    sent; the file changes only on [AccessDenied], and then the pass ends
    in [SystemExit]. *)
Lemma validate_attempt_cases tok w :
  ascii_value tok = true ->
  let w1 := add_request (POST_validate_me tok) w in
  match verdict_of (responses w (length (requests w))) with
  | Accepted => validate_attempt tok w = (Ret (Some true), w1)
  | AccessDenied =>
      validate_attempt tok w
      = (Raise (Exn SystemExit "Access denied"), snd (delete_token_from_config w1))
  | Transient => validate_attempt tok w = (Ret None, add_sleep w1)
  end.
Proof.
  intros Ha w1. pose proof (validate_token_result tok w Ha) as H.
  pose proof (validate_token_world tok w) as Hw. rewrite Ha in Hw. fold w1 in Hw.
  unfold validate_attempt, sleep. unfold_py.
  rewrite (surjective_pairing (validate_token tok w)), Hw.
  destruct (verdict_of _); [| |destruct H as [msg H]]; rewrite H;
    cbn -[delete_token_from_config].
  - reflexivity.
  - rewrite delete_token_from_config_cases. reflexivity.
  - reflexivity.
Qed.

(** One pass for a token that cannot be sent: the file is emptied and the
    pass ends in [SystemExit], with no request. *)
Lemma validate_attempt_unsendable tok w :
  ascii_value tok = false ->
  validate_attempt tok w
  = (Raise (Exn SystemExit "Access denied"), snd (delete_token_from_config w)).
Proof.
  intros Ha. unfold validate_attempt. unfold_py.
  rewrite (validate_token_unsendable _ _ Ha). cbn -[delete_token_from_config].
  rewrite delete_token_from_config_cases. reflexivity.
Qed.

Lemma validate_loop_preserves_file n : forall tok w,
  ascii_value tok = true ->
  (forall i, i < n ->
     verdict_of (responses w (length (requests w) + i)) <> AccessDenied) ->
  hosting_json (snd (validate_loop n tok w)) = hosting_json w.
Proof.
  induction n as [|n IH]; intros tok w Ha Hno; [reflexivity|].
  cbn [validate_loop]. unfold bind.
  pose proof (validate_attempt_cases tok w Ha) as H. cbn zeta in H.
  pose proof (Hno 0 ltac:(lia)) as H0. rewrite Nat.add_0_r in H0.
  destruct (verdict_of (responses w (length (requests w)))); [|congruence|];
    rewrite H; [reflexivity|].
  rewrite IH; [reflexivity|exact Ha|].
  intros i Hi. cbn. rewrite length_app; cbn.
  replace (length (requests w) + 1 + i) with (length (requests w) + S i) by lia.
  apply Hno. lia.
Qed.

Lemma validate_loop_changes_file n : forall tok w,
  hosting_json (snd (validate_loop n tok w)) <> hosting_json w ->
  fst (validate_loop n tok w) = Raise (Exn SystemExit "Access denied").
Proof.
  induction n as [|n IH]; intros tok w; [cbn; congruence|].
  cbn [validate_loop]. unfold bind.
  destruct (ascii_value tok) eqn:Ha.
  - pose proof (validate_attempt_cases tok w Ha) as H. cbn zeta in H.
    destruct (verdict_of (responses w (length (requests w)))); rewrite H.
    + cbn. congruence.
    + reflexivity.
    + intros Hne. apply IH. exact Hne.
  - rewrite (validate_attempt_unsendable _ _ Ha). reflexivity.
Qed.

(** For a token that can be sent the credential is safe: the file is kept
    unless an answer is a 403; a call that changes the file ends in
    [SystemExit]; and [authenticated_token] never changes the file. *)
Lemma credential_kept_for_sendable_token `{Hosting} (tok : value) (w : world) :
  ascii_value tok = true ->
  (forall i, i < WEB_AUTH_RETRIES ->
     verdict_of (responses w (length (requests w) + i)) <> AccessDenied) ->
  hosting_json (snd (validate_token_with_retries tok w)) = hosting_json w
  /\ (forall w',
        hosting_json (snd (validate_token_with_retries tok w')) <> hosting_json w' ->
        fst (validate_token_with_retries tok w') = Raise (Exn SystemExit "Access denied"))
  /\ (forall w', hosting_json (snd (authenticated_token w')) = hosting_json w').
Proof.
  intros Ha Hno. split; [|split].
  - apply validate_loop_preserves_file; assumption.
  - intros w'. apply validate_loop_changes_file.
  - apply authenticated_token_file.
Qed.

(** C1: for the stored token "té", which holds a character outside ASCII,
    and a control plane that would accept every request,
    [validate_token_with_retries] ends in [SystemExit("Access denied")] and
    leaves the credential file empty, with no request sent: the credential
    is deleted although the server has rejected nothing. *)
Theorem validate_token_with_retries_wipes_unsendable_token :
  hosting_json accented_login
  = Some (File (Document (VDict [("access_token", VStr accented_token);
                                 ("code", VStr "inv")])) true true)
  /\ (forall n, responses accented_login n = Response 200)
  /\ requests accented_login = []
  /\ validate_token_with_retries (VStr accented_token) accented_login
     = (Raise (Exn SystemExit "Access denied"),
        set_file (Some (File Empty true true)) accented_login).
Proof. repeat split. Qed.

(** C2: on a stored record with an access token and an invitation code,
    [delete_token_from_config] returns without raising and leaves the file
    empty: the invitation code is gone with the token. *)
Theorem delete_token_from_config_drops_invitation_code :
  hosting_json (logged_in (Response 403))
  = Some (File (Document (VDict [("access_token", VStr "tok"); ("code", VStr "inv")]))
               true true)
  /\ delete_token_from_config (logged_in (Response 403))
     = (Ret tt, set_file (Some (File Empty true true)) (logged_in (Response 403))).
Proof. split; reflexivity. Qed.

(** The part of C2 that holds: the deletion never raises. *)
Lemma delete_token_from_config_never_raises w :
  fst (delete_token_from_config w) = Ret tt.
Proof. rewrite delete_token_from_config_cases. reflexivity. Qed.

(** C10: [authenticated_token] never raises.  It returns the stored token
    exactly when the credential loads and the control plane accepts it, and
    [None] in every other case: no file, a malformed record, an empty
    token, access denied, a transient failure, a failed clean-up. *)
Theorem authenticated_token_never_raises (w : world) :
  exists v,
    fst (authenticated_token w) = Ret v
    /\ ((exists code,
           fst (get_existing_access_token w) = Ret (v, code)
           /\ fst (validate_token v w) = Ret tt)
        \/ (v = VNone
            /\ forall tok code,
                 fst (get_existing_access_token w) = Ret (tok, code) ->
                 fst (validate_token tok w) <> Ret tt)).
Proof.
  rewrite authenticated_token_cases.
  destruct (fst (get_existing_access_token w)) as [[tok code]|e] eqn:E.
  - destruct (fst (validate_token tok w)) as [[]|e] eqn:Ev.
    + exists tok. split; [reflexivity|]. left. exists code. auto.
    + exists VNone. split; [reflexivity|]. right. split; [reflexivity|].
      intros tok' code' E'. inversion E'; subst. congruence.
  - exists VNone. split; [reflexivity|]. right. split; [reflexivity|].
    intros tok code E'. discriminate.
Qed.

(** ** Deleting a deployment *)

Lemma authenticated_token_requests w :
  requests (snd (authenticated_token w)) = requests w
  \/ exists tok, requests (snd (authenticated_token w))
                 = (requests w ++ [POST_validate_me tok])%list.
Proof.
  rewrite authenticated_token_cases.
  destruct (fst (get_existing_access_token w)) as [[tok code]|e]; [|left; reflexivity].
  pose proof (validate_token_world tok w) as Hw.
  destruct (fst (validate_token tok w)); cbn [snd]; rewrite Hw;
    (destruct (ascii_value tok); [right; exists tok; reflexivity|left; reflexivity]).
Qed.

(** C3, as the code has it: with an empty key [delete_deployment] sends no
    DELETE request.  It first runs [authenticated_token], which validates
    a stored token with one POST; then it raises [ValueError] when that
    gave a token and [Exception("not authenticated")] when it did not. *)
Theorem delete_deployment_empty_key (w : world) :
  exists token,
    fst (authenticated_token w) = Ret token
    /\ delete_deployment "" w
       = (Raise (if truthy token
                 then Exn ValueError "Valid key is required for the delete."
                 else Exn Exception "not authenticated"),
          snd (authenticated_token w))
    /\ (requests (snd (delete_deployment "" w)) = requests w
        \/ exists tok, requests (snd (delete_deployment "" w))
                       = (requests w ++ [POST_validate_me tok])%list).
Proof.
  destruct (authenticated_token_returns w) as [token Ht].
  exists token. split; [exact Ht|].
  assert (E : delete_deployment "" w
              = (Raise (if truthy token
                        then Exn ValueError "Valid key is required for the delete."
                        else Exn Exception "not authenticated"),
                 snd (authenticated_token w))).
  { unfold delete_deployment. unfold_py.
    rewrite (surjective_pairing (authenticated_token w)), Ht.
    destruct (truthy token); reflexivity. }
  split; [exact E|]. rewrite E. apply authenticated_token_requests.
Qed.

(** C3 as stated fails: with a stored token that the server accepts, the
    call with an empty key has sent a validation request by the time it
    raises; with no stored credential it raises [Exception], not
    [ValueError]. *)
Lemma empty_key_delete_validates_first :
  delete_deployment "" (logged_in (Response 200))
  = (Raise (Exn ValueError "Valid key is required for the delete."),
     add_request (POST_validate_me (VStr "tok")) (logged_in (Response 200)))
  /\ requests (snd (delete_deployment "" (logged_in (Response 200))))
     <> requests (logged_in (Response 200))
  /\ fst (delete_deployment "" logged_out)
     = Raise (Exn Exception "not authenticated").
Proof. split; [reflexivity|split; [cbn; discriminate|reflexivity]]. Qed.

(** ** The pydantic models *)

Lemma ensure_at_least_one_deploy_params_ret values r :
  ensure_at_least_one_deploy_params values = Ret r ->
  r = values /\ 1 <= populated values.
Proof.
  unfold ensure_at_least_one_deploy_params, populated.
  destruct (reply values), (suggestion values), (not_existing (existing values));
    cbn; intros E; inversion E; split; auto; lia.
Qed.

(** C4, as the code has it: a [DeploymentPrepareResponse] that constructs
    carries at least one of reply, non-empty existing list and suggestion,
    with the fields as they were passed; with all three absent or empty
    the construction raises. *)
Theorem prepare_response_at_least_one
    (app_prefix : string) (reply suggestion : option DeploymentPrepInfo)
    (existing : option (list DeploymentPrepInfo)) (r : DeploymentPrepareResponse) :
  new_DeploymentPrepareResponse app_prefix reply suggestion existing = Ret r ->
  1 <= populated r
  /\ r = Build_DeploymentPrepareResponse app_prefix reply existing suggestion
  /\ (forall p e, not_existing e = true ->
        new_DeploymentPrepareResponse p None None e
        = Raise (Exn ValidationError
            "At least one set of params for deploy is required from control plane.")).
Proof.
  unfold new_DeploymentPrepareResponse. intros E. split; [|split].
  - destruct (ensure_at_least_one_deploy_params _) as [v|e] eqn:Ev; [|discriminate].
    apply ensure_at_least_one_deploy_params_ret in Ev. destruct Ev as [-> Hp].
    inversion E; subst. exact Hp.
  - destruct (ensure_at_least_one_deploy_params _) as [v|e] eqn:Ev; [|discriminate].
    apply ensure_at_least_one_deploy_params_ret in Ev. destruct Ev as [-> _].
    inversion E; reflexivity.
  - intros p e He. unfold ensure_at_least_one_deploy_params; cbn.
    rewrite He. reflexivity.
Qed.

Lemma prepare_response_at_least_one_witness :
  1 <= populated (Build_DeploymentPrepareResponse "p" None (Some [example_info]) None)
  /\ Build_DeploymentPrepareResponse "p" None (Some [example_info]) None
     = Build_DeploymentPrepareResponse "p" None (Some [example_info]) None
  /\ (forall p e, not_existing e = true ->
        new_DeploymentPrepareResponse p None None e
        = Raise (Exn ValidationError
            "At least one set of params for deploy is required from control plane.")).
Proof.
  apply (prepare_response_at_least_one "p" None None (Some [example_info])).
  reflexivity.
Defined.

(** C4 as stated fails: a response with both a reply and a suggestion
    constructs, and two of the three sets are populated. *)
Lemma prepare_response_reply_and_suggestion :
  new_DeploymentPrepareResponse "p" (Some example_info) (Some example_info) None
  = Ret (Build_DeploymentPrepareResponse "p" (Some example_info) None (Some example_info))
  /\ populated (Build_DeploymentPrepareResponse
                  "p" (Some example_info) None (Some example_info)) = 2.
Proof. split; reflexivity. Qed.

(** C8: a [SiteStatus] that constructs has a frontend URL or a backend
    URL; with neither the construction raises. *)
Theorem site_status_one_of_urls
    (frontend backend : option string) (reach : bool) (updated : option string)
    (st : SiteStatus) :
  new_SiteStatus frontend backend reach updated = Ret st ->
  (frontend_url st <> None \/ backend_url st <> None)
  /\ st = Build_SiteStatus frontend backend reach updated
  /\ (forall b u, new_SiteStatus None None b u
                  = Raise (Exn ValidationError "At least one of the URLs is required.")).
Proof.
  unfold new_SiteStatus, ensure_one_of_urls; cbn. intros E.
  split; [|split; [|reflexivity]].
  - destruct frontend, backend; cbn in E; inversion E; cbn; auto; discriminate.
  - destruct frontend, backend; cbn in E; inversion E; reflexivity.
Qed.

Lemma site_status_one_of_urls_witness :
  (frontend_url (Build_SiteStatus (Some "https://app") None true None) <> None
   \/ backend_url (Build_SiteStatus (Some "https://app") None true None) <> None)
  /\ Build_SiteStatus (Some "https://app") None true None
     = Build_SiteStatus (Some "https://app") None true None
  /\ (forall b u, new_SiteStatus None None b u
                  = Raise (Exn ValidationError "At least one of the URLs is required.")).
Proof.
  apply (site_status_one_of_urls (Some "https://app") None true None).
  reflexivity.
Defined.

(** ** Environment variables *)

Lemma process_envs_example :
  process_envs ["k1=v1"; "k2=v2"] = Ret {[ "k1" := "v1"; "k2" := "v2" ]}.
Proof. vm_compute. reflexivity. Qed.

Lemma process_envs_bad_examples :
  (exists msg, process_envs ["bad"] = Raise (Exn SystemExit msg))
  /\ (exists msg, process_envs ["1x=v"] = Raise (Exn SystemExit msg))
  /\ process_envs ["k="] = Ret {[ "k" := "" ]}.
Proof.
  split; [eexists; reflexivity|split; [eexists; reflexivity|]].
  vm_compute. reflexivity.
Qed.

Lemma process_envs_from_rejected envs : forall acc env,
  In env envs -> rejected env = true ->
  exists msg, process_envs_from acc envs = Raise (Exn SystemExit msg).
Proof.
  induction envs as [|e rest IH]; intros acc env Hin Hrej; [destruct Hin|].
  cbn [process_envs_from]. unfold split_maxsplit1.
  destruct (split_first "=" e) as [[k v]|] eqn:Es; cbn; [|eauto].
  destruct (re_match_env_name k) eqn:Em; cbn; [|eauto].
  destruct Hin as [->|Hin]; [|eauto].
  unfold rejected in Hrej. rewrite Es, Em in Hrej. discriminate.
Qed.

(** Every name the specification allows is accepted. *)
Lemma spec_env_name_accepted s : spec_env_name s = true -> re_match_env_name s = true.
Proof.
  destruct s as [|c rest]; cbn; [auto|].
  intros H. apply andb_prop in H. destruct H as [-> H]; cbn.
  induction rest as [|c' rest IH]; cbn in *; [reflexivity|].
  apply andb_prop in H. destruct H as [-> H]. auto.
Qed.

(** What the pattern accepts beyond the allowed names: an allowed name
    followed by one newline. *)
Lemma match_name_tail_cases rest :
  match_name_tail rest = true ->
  forallb name_char (list_ascii_of_string rest) = true
  \/ exists r, rest = r ++ newline
               /\ forallb name_char (list_ascii_of_string r) = true.
Proof.
  induction rest as [|c rest IH]; cbn; [auto|].
  destruct (name_char c) eqn:Ec; cbn.
  - intros H. destruct (IH H) as [Hall | (r & -> & Hall)]; [auto|].
    right. exists (String c r). cbn. rewrite Ec. auto.
  - intros H. apply andb_prop in H. destruct H as [Hn Hr].
    apply String.eqb_eq in Hr. subst rest.
    unfold is_newline in Hn. apply Ascii.eqb_eq in Hn. subst c.
    right. exists EmptyString. auto.
Qed.

Lemma re_match_env_name_cases s :
  re_match_env_name s = true ->
  spec_env_name s = true
  \/ exists s', s = s' ++ newline /\ spec_env_name s' = true.
Proof.
  destruct s as [|c rest]; cbn; [discriminate|].
  intros H. apply andb_prop in H. destruct H as [Hc Ht]. rewrite Hc; cbn.
  destruct (match_name_tail_cases _ Ht) as [Hall | (r & -> & Hall)]; [auto|].
  right. exists (String c r). cbn. rewrite Hc. auto.
Qed.

(** C5: [process_envs] accepts an entry whose name ends in a newline,
    which [[A-Za-z_][A-Za-z0-9_]*] does not match: on the list with the one
    entry "A\n=v" it returns the mapping from "A\n" to "v".  The [$] of the
    pattern matches before a final newline. *)
Theorem process_envs_accepts_trailing_newline :
  spec_env_name ("A" ++ newline) = false
  /\ process_envs ["A" ++ newline ++ "=v"] = Ret {[ "A" ++ newline := "v" ]}.
Proof. split; vm_compute; reflexivity. Qed.

(** ** Timestamps *)

Lemma convert_to_local_time_cases `{Datetime} iso :
  convert_to_local_time iso = Ret (default iso (local_rendering iso)).
Proof.
  unfold convert_to_local_time, local_rendering, library_call.
  destruct (fromisoformat iso) as [dt|]; [|reflexivity].
  destruct (astimezone dt) as [l|]; [|reflexivity].
  destruct (strftime l LOCAL_FORMAT); reflexivity.
Qed.

(** C7: [convert_to_local_time] never raises.  When parsing, conversion
    to the local zone and formatting succeed it returns the timestamp
    formatted with "%Y-%m-%d %H:%M:%S.%f %Z"; when one of them fails it
    returns its argument, and so does a second call on what it returned. *)
Theorem convert_to_local_time_fallback `{Datetime} (iso : string) :
  (exists s, convert_to_local_time iso = Ret s)
  /\ (forall dt local_dt s,
        fromisoformat iso = Some dt -> astimezone dt = Some local_dt ->
        strftime local_dt "%Y-%m-%d %H:%M:%S.%f %Z" = Some s ->
        convert_to_local_time iso = Ret s)
  /\ (local_rendering iso = None ->
      convert_to_local_time iso = Ret iso
      /\ forall s, convert_to_local_time iso = Ret s -> convert_to_local_time s = Ret s).
Proof.
  split; [|split].
  - rewrite convert_to_local_time_cases. eauto.
  - intros dt l s Hf Ha Hs. rewrite convert_to_local_time_cases.
    unfold local_rendering. rewrite Hf, Ha. unfold LOCAL_FORMAT. rewrite Hs.
    reflexivity.
  - intros Hnone. rewrite convert_to_local_time_cases, Hnone. split; [reflexivity|].
    intros s E. inversion E; subst.
    rewrite convert_to_local_time_cases, Hnone. reflexivity.
Qed.

Lemma convert_to_local_time_fallback_witness :
  convert_to_local_time "2023" = Ret "2023 UTC"
  /\ convert_to_local_time "yesterday" = Ret "yesterday".
Proof.
  split.
  - apply (proj1 (proj2 (@convert_to_local_time_fallback example_datetime "2023"))
             ("2023" : @datetime example_datetime) ("2023" : @datetime example_datetime));
      reflexivity.
  - exact (proj1 (proj2 (proj2 (@convert_to_local_time_fallback
                                    example_datetime "yesterday")) eq_refl)).
Defined.

(** ** The deploy-milestone stream *)

Lemma convert_value_to_local_time_str `{Datetime} ts :
  convert_value_to_local_time (VStr ts) = Ret (VStr (default ts (local_rendering ts))).
Proof. cbn. rewrite convert_to_local_time_cases. reflexivity. Qed.

Lemma milestone_event_received `{Datetime} `{Text} `{Hosting} items w :
  received (snd (milestone_event items w)) = received w
  /\ frames (snd (milestone_event items w)) = frames w.
Proof.
  unfold milestone_event, get_item, join_bar, console_print. unfold_py.
  destruct (items_get "timestamp" items) as [ts|]; cbn; auto.
  assert (Hc : exists v, convert_value_to_local_time ts = Ret v).
  { destruct ts; cbn; eauto. rewrite convert_to_local_time_cases. eauto. }
  destruct Hc as [v ->].
  destruct (items_get "message" items) as [m|]; cbn; auto.
  destruct v, m; cbn; auto.
Qed.

(** Every pass of the loop body takes one frame off the stream. *)
Lemma milestone_step_received `{Datetime} `{Text} `{Hosting} w :
  received (snd (milestone_step w)) = S (received w)
  /\ frames (snd (milestone_step w)) = frames w.
Proof.
  unfold milestone_step, ws_recv_json. unfold_py.
  destruct (frames w (received w)) as [| |row]; cbn; auto.
  destruct row as [| | | | |[|item items]]; cbn; auto.
  destruct (milestone_event_received (item :: items) (add_received w)) as [-> ->].
  auto.
Qed.

Lemma milestone_step_heartbeat `{Datetime} `{Text} `{Hosting} w :
  heartbeat (frames w (received w)) ->
  milestone_step w = (Ret false, add_received w).
Proof.
  unfold milestone_step, ws_recv_json, heartbeat. unfold_py.
  destruct (frames w (received w)) as [| |row]; try contradiction.
  destruct row as [| | | | |[|item items]]; cbn; try reflexivity; contradiction.
Qed.

Lemma milestone_step_event `{Datetime} `{Text} `{Hosting} w message :
  event_with message (frames w (received w)) ->
  exists line,
    milestone_step w
    = (Ret (is_end_of_deployment message), add_line line (add_received w)).
Proof.
  intros (items & ts & Hf & Hts & Hm).
  unfold milestone_step, ws_recv_json. unfold_py.
  rewrite Hf. destruct items as [|item items]; [discriminate|].
  unfold milestone_event, get_item, join_bar, console_print. unfold_py.
  rewrite Hts, Hm, convert_value_to_local_time_str. eauto.
Qed.

Lemma milestone_step_keeps_streaming `{Datetime} `{Text} `{Hosting} w :
  keeps_streaming (frames w (received w)) ->
  exists w', milestone_step w = (Ret false, w')
             /\ received w' = S (received w) /\ frames w' = frames w.
Proof.
  intros [Hh | (message & He & Hend)].
  - rewrite (milestone_step_heartbeat _ Hh). eauto.
  - destruct (milestone_step_event _ _ He) as [line ->]. rewrite Hend. eauto.
Qed.

(** The loop takes at most [budget] frames. *)
Lemma milestone_loop_bounded `{Datetime} `{Text} `{Hosting} budget : forall w,
  received (snd (milestone_loop budget w)) <= received w + budget.
Proof.
  induction budget as [|n IH]; intros w; cbn [milestone_loop]; [cbn; lia|].
  unfold bind. pose proof (milestone_step_received w) as [Hr _].
  destruct (milestone_step w) as [[[]|e] w']; cbn in *; try lia.
  specialize (IH w'). lia.
Qed.



(** The loop raises nothing that [except Exception] lets through. *)
Lemma milestone_event_raises `{Datetime} `{Text} `{Hosting} items w e :
  fst (milestone_event items w) = Raise e -> is_Exception e = true.
Proof.
  unfold milestone_event, get_item, join_bar, console_print. unfold_py.
  destruct (items_get "timestamp" items) as [ts|]; cbn;
    [|intros E; inversion E; reflexivity].
  assert (Hc : exists v, convert_value_to_local_time ts = Ret v).
  { destruct ts; cbn; eauto. rewrite convert_to_local_time_cases. eauto. }
  destruct Hc as [v ->].
  destruct (items_get "message" items) as [m|]; cbn;
    [|intros E; inversion E; reflexivity].
  destruct v, m; cbn; intros E; inversion E; reflexivity.
Qed.

Lemma milestone_step_raises `{Datetime} `{Text} `{Hosting} w e :
  fst (milestone_step w) = Raise e -> is_Exception e = true.
Proof.
  unfold milestone_step, ws_recv_json. unfold_py.
  destruct (frames w (received w)) as [| |row]; cbn;
    try (intros E; inversion E; reflexivity).
  destruct row as [| | | | |[|item items]]; cbn; try discriminate.
  pose proof (milestone_event_raises (item :: items) (add_received w) e) as He.
  destruct (milestone_event (item :: items) (add_received w)) as [[b|e'] w']; cbn in *;
    [discriminate|exact He].
Qed.

Lemma milestone_loop_raises `{Datetime} `{Text} `{Hosting} budget : forall w e,
  fst (milestone_loop budget w) = Raise e -> is_Exception e = true.
Proof.
  induction budget as [|n IH]; intros w e; cbn [milestone_loop]; [discriminate|].
  unfold bind. pose proof (milestone_step_raises w e) as Hs.
  destruct (milestone_step w) as [[[]|e'] w']; cbn in *; [discriminate|apply IH|].
  intros E. inversion E; subst. apply Hs. reflexivity.
Qed.

(** Once the key and the login are there, [display_deploy_milestones]
    returns normally whatever the stream does. *)
Lemma display_deploy_milestones_returns `{Datetime} `{Text} `{Hosting} key ts w token :
  key <> "" ->
  fst (authenticated_token w) = Ret token -> truthy token = true ->
  fst (display_deploy_milestones key ts w) = Ret tt.
Proof.
  intros Hk Ht Htr. unfold display_deploy_milestones.
  destruct (String.eqb key "") eqn:Ek; [apply String.eqb_eq in Ek; contradiction|].
  unfold_py. rewrite (surjective_pairing (authenticated_token w)), Ht, Htr; cbn.
  unfold library_call, ws_connect.
  destruct (astimezone ts); cbn; [|reflexivity].
  destruct (ws_connects _); cbn; [|reflexivity].
  pose proof (milestone_loop_raises DEPLOYMENT_EVENT_MESSAGES_RETRIES
                (snd (authenticated_token w))) as Hr.
  destruct (milestone_loop _ _) as [[[]|e] w']; cbn in *; [reflexivity|].
  rewrite (Hr e eq_refl). reflexivity.
Qed.

Lemma authenticated_token_stream w :
  received (snd (authenticated_token w)) = received w
  /\ frames (snd (authenticated_token w)) = frames w
  /\ console (snd (authenticated_token w)) = console w
  /\ ws_connects (snd (authenticated_token w)) = ws_connects w.
Proof.
  rewrite authenticated_token_cases.
  destruct (fst (get_existing_access_token w)) as [[tok code]|e]; [|auto].
  pose proof (validate_token_world tok w) as Hw.
  destruct (fst (validate_token tok w)); cbn [snd]; rewrite Hw;
    destruct (ascii_value tok); auto.
Qed.






(** Saving a token and loading it gives the token back. *)
Example save_then_load :
  fst (get_existing_access_token (snd (save_token_to_config "tok" (Some "inv") logged_out)))
  = Ret (VStr "tok", VStr "inv").
Proof. reflexivity. Qed.

(** * More properties of the module *)

(** ** Validation with retries *)













Lemma validate_loop_outcomes n : forall tok w,
  (fst (validate_loop n tok w) = Ret true
   \/ fst (validate_loop n tok w) = Ret false
   \/ fst (validate_loop n tok w) = Raise (Exn SystemExit "Access denied"))
  /\ length (requests (snd (validate_loop n tok w))) <= length (requests w) + n
  /\ slept (snd (validate_loop n tok w)) <= slept w + n.
Proof.
  induction n as [|n IH]; intros tok w; cbn [validate_loop].
  - cbn. split; [auto|lia].
  - unfold bind. destruct (ascii_value tok) eqn:Ha.
    + pose proof (validate_attempt_cases tok w Ha) as H. cbn zeta in H.
      destruct (verdict_of (responses w (length (requests w)))); rewrite H.
      * cbn. rewrite length_app; cbn. split; [auto|lia].
      * rewrite delete_token_from_config_cases. cbn [fst snd].
        split; [auto|].
        destruct (hosting_json _) as [f|]; [destruct (f_writable f)|]; cbn;
          rewrite length_app; cbn; lia.
      * destruct (IH tok (add_sleep (add_request (POST_validate_me tok) w)))
          as (Ho & Hq & Hs).
        split; [exact Ho|]. cbn in Hq, Hs. rewrite length_app in Hq; cbn in Hq. lia.
    + rewrite (validate_attempt_unsendable _ _ Ha).
      rewrite delete_token_from_config_cases. cbn [fst snd].
      split; [auto|].
      destruct (hosting_json w) as [f|]; [destruct (f_writable f)|]; cbn; lia.
Qed.

(** X5: whatever the control plane answers, [validate_token_with_retries]
    ends with [True], with [False] or in [SystemExit("Access denied")],
    having sent at most [WEB_AUTH_RETRIES] requests and slept at most as
    often. *)
Theorem validate_token_with_retries_bounded `{Hosting} (tok : value) (w : world) :
  (fst (validate_token_with_retries tok w) = Ret true
   \/ fst (validate_token_with_retries tok w) = Ret false
   \/ fst (validate_token_with_retries tok w) = Raise (Exn SystemExit "Access denied"))
  /\ length (requests (snd (validate_token_with_retries tok w)))
     <= length (requests w) + WEB_AUTH_RETRIES
  /\ slept (snd (validate_token_with_retries tok w)) <= slept w + WEB_AUTH_RETRIES.
Proof. apply validate_loop_outcomes. Qed.

(** ** The credential store, composed *)

Lemma no_credential_no_login w :
  no_credential w -> fst (get_existing_access_token w) = Raise NO_EXISTING_LOGIN.
Proof.
  intros Hno.
  destruct (fst (get_existing_access_token w)) as [[tok code]|e] eqn:E.
  - exfalso. apply get_existing_access_token_ret in E.
    destruct E as (Ht & f & items & Hf & Hc & -> & _).
    destruct Hno as [Habs | f' Hf' [Hm | Hm] | f' items' Hf' Hc' Hfalse];
      rewrite Hf in *; simplify_eq; congruence.
  - f_equal. eapply get_existing_access_token_raise; eauto.
Qed.

(** X6: without a usable credential on disk (no file, a file that is not
    JSON, or no non-empty [access_token]), [authenticated_token] returns
    [None] and leaves the world as it was: no request is sent. *)
Theorem authenticated_token_offline (w : world) :
  no_credential w -> authenticated_token w = (Ret VNone, w).
Proof.
  intros Hno. rewrite authenticated_token_cases, (no_credential_no_login _ Hno).
  reflexivity.
Qed.

Lemma authenticated_token_offline_witness :
  authenticated_token logged_out = (Ret VNone, logged_out).
Proof.
  apply (authenticated_token_offline logged_out).
  apply credential_file_absent. reflexivity.
Defined.



Lemma save_token_to_config_cases token code w :
  save_token_to_config token code w
  = (Ret tt,
     let record :=
       VDict (("access_token", VStr token)
              :: match code with
                 | Some c => if String.eqb c "" then [] else [("code", VStr c)]
                 | None => []
                 end) in
     match hosting_json w with
     | None =>
         if can_create w
         then set_file (Some (File (Document record) true true)) w
         else w
     | Some f =>
         if f_writable f
         then set_file (Some (File (Document record) (f_readable f) true)) w
         else w
     end).
Proof.
  unfold save_token_to_config. unfold_py. rewrite open_w.
  destruct (hosting_json w) as [f|] eqn:Ef.
  - destruct (f_writable f) eqn:Ew; [|reflexivity].
    unfold json_dump; cbn.
    destruct code as [c|]; [destruct (String.eqb c "")|]; reflexivity.
  - destruct (can_create w) eqn:Ec; [|reflexivity].
    unfold json_dump; cbn.
    destruct code as [c|]; [destruct (String.eqb c "")|]; reflexivity.
Qed.

(** X8: saving a non-empty token, with or without an invitation code, into
    a file the process may read and write, or into a missing file that can
    be created (its directory is there and can be written), and then
    loading the credential gives the token and the code back ([None] for
    no code or an empty one), whatever the file held before. *)
Theorem save_then_get_existing (token : string) (code : option string) (w : world) :
  token <> "" ->
  match hosting_json w with
  | Some f => f_readable f = true /\ f_writable f = true
  | None => can_create w = true
  end ->
  fst (save_token_to_config token code w) = Ret tt
  /\ fst (get_existing_access_token (snd (save_token_to_config token code w)))
     = Ret (VStr token,
            match code with
            | Some c => if String.eqb c "" then VNone else VStr c
            | None => VNone
            end).
Proof.
  intros Ht Hf. rewrite save_token_to_config_cases. split; [reflexivity|].
  assert (Hne : String.eqb token "" = false) by (apply String.eqb_neq; exact Ht).
  cbn [snd]. unfold_load.
  destruct (hosting_json w) as [f|]; [destruct Hf as [Hr Hw]; rewrite Hw, Hr|rewrite Hf];
    cbn; rewrite Hne; cbn;
    destruct code as [c|]; try destruct (String.eqb c ""); reflexivity.
Qed.

Lemma save_then_get_existing_witness :
  fst (save_token_to_config "tok2" (Some "inv2") (logged_in Timeout)) = Ret tt
  /\ fst (get_existing_access_token
            (snd (save_token_to_config "tok2" (Some "inv2") (logged_in Timeout))))
     = Ret (VStr "tok2", VStr "inv2").
Proof.
  apply (save_then_get_existing "tok2" (Some "inv2") (logged_in Timeout)).
  - discriminate.
  - split; reflexivity.
Defined.

(** X9: on a credential file the process may not write, both
    [save_token_to_config] and [delete_token_from_config] return normally
    and change nothing: the old record, token included, stays cached. *)
Theorem read_only_file_is_kept (token : string) (code : option string)
    (w : world) (f : file) :
  hosting_json w = Some f -> f_writable f = false ->
  save_token_to_config token code w = (Ret tt, w)
  /\ delete_token_from_config w = (Ret tt, w).
Proof.
  intros Hf Hw.
  rewrite save_token_to_config_cases, delete_token_from_config_cases, Hf, Hw.
  split; reflexivity.
Qed.

Lemma read_only_file_is_kept_witness :
  save_token_to_config "new" None read_only_login = (Ret tt, read_only_login)
  /\ delete_token_from_config read_only_login = (Ret tt, read_only_login).
Proof.
  apply (read_only_file_is_kept "new" None read_only_login
           (File (Document stored_credential) true false));
    reflexivity.
Defined.

(** X10: after [delete_token_from_config] on a writable credential file
    there is no login any more: the load fails, and [authenticated_token]
    returns [None] without sending a request. *)
Theorem deleted_token_logs_out (w : world) (f : file) :
  hosting_json w = Some f -> f_writable f = true ->
  fst (get_existing_access_token (snd (delete_token_from_config w)))
  = Raise NO_EXISTING_LOGIN
  /\ authenticated_token (snd (delete_token_from_config w))
     = (Ret VNone, snd (delete_token_from_config w)).
Proof.
  intros Hf Hw. rewrite delete_token_from_config_cases, Hf, Hw. cbn [snd].
  assert (Hno : no_credential
                  (set_file (Some (File Empty (f_readable f) true)) w)).
  { eapply credential_file_malformed; [reflexivity|]. right. reflexivity. }
  split.
  - apply no_credential_no_login, Hno.
  - rewrite authenticated_token_cases, (no_credential_no_login _ Hno). reflexivity.
Qed.

Lemma deleted_token_logs_out_witness :
  fst (get_existing_access_token
         (snd (delete_token_from_config (logged_in (Response 200)))))
  = Raise NO_EXISTING_LOGIN
  /\ authenticated_token (snd (delete_token_from_config (logged_in (Response 200))))
     = (Ret VNone, snd (delete_token_from_config (logged_in (Response 200)))).
Proof.
  apply (deleted_token_logs_out (logged_in (Response 200))
           (File (Document stored_credential) true true));
    reflexivity.
Defined.

(** ** Deleting a deployment, past the guards *)



(** The DELETE and its handlers.  A URL or a header httpx cannot build ends
    in [Exception("internal errors")] with nothing sent. *)
Lemma delete_request_cases key token w :
  try_except
    (bind (httpx_send (DELETE_deployment key token)) raise_for_status)
    (fun e =>
       if is_TimeoutException e then raise Exception "request timeout"
       else if is_HTTPError e then raise Exception "internal errors"
       else if is_Exception e then raise Exception "internal errors"
       else reraise e) w
  = if url_ok key && ascii_value token
    then (delete_result (responses w (length (requests w))),
          add_request (DELETE_deployment key token) w)
    else (Raise (Exn Exception "internal errors"), w).
Proof.
  unfold httpx_send, build_request, raise_for_status, delete_result. unfold_py.
  destruct (url_ok key); [|reflexivity]. cbn [negb andb].
  destruct (ascii_value token); [|reflexivity].
  destruct (responses w (length (requests w))) as [| | | |status]; try reflexivity.
  destruct (is_success status); reflexivity.
Qed.

Lemma delete_deployment_cases key w :
  delete_deployment key w
  = match authenticated_token w with
    | (Ret token, w1) =>
        if negb (truthy token)
        then (Raise (Exn Exception "not authenticated"), w1)
        else if String.eqb key ""
        then (Raise (Exn ValueError "Valid key is required for the delete."), w1)
        else if url_ok key && ascii_value token
        then (delete_result (responses w1 (length (requests w1))),
              add_request (DELETE_deployment key token) w1)
        else (Raise (Exn Exception "internal errors"), w1)
    | (Raise e, w1) => (Raise e, w1)
    end.
Proof.
  unfold delete_deployment. unfold bind at 1.
  destruct (authenticated_token w) as [[token|e] w1]; [|reflexivity].
  destruct (negb (truthy token)); [reflexivity|].
  destruct (String.eqb key ""); [reflexivity|].
  apply delete_request_cases.
Qed.



(** X12: every exception [delete_deployment] raises is one of four: the
    [ValueError] for an empty key, [Exception("not authenticated")],
    [Exception("request timeout")] or [Exception("internal errors")]; and
    no run of it changes the credential file. *)
Theorem delete_deployment_failures (key : string) (w : world) :
  (forall e, fst (delete_deployment key w) = Raise e ->
     e = Exn ValueError "Valid key is required for the delete."
     \/ e = Exn Exception "not authenticated"
     \/ e = Exn Exception "request timeout"
     \/ e = Exn Exception "internal errors")
  /\ hosting_json (snd (delete_deployment key w)) = hosting_json w.
Proof.
  destruct (authenticated_token_returns w) as [token Ht].
  pose proof (authenticated_token_file w) as Hfile.
  rewrite delete_deployment_cases.
  destruct (authenticated_token w) as [r w1]. cbn in Ht, Hfile. subst r.
  destruct (truthy token); cbn [negb].
  2:{ cbn. split; [|exact Hfile]. intros e E. inversion E. auto. }
  destruct (String.eqb key "").
  { cbn. split; [|exact Hfile]. intros e E. inversion E. auto. }
  destruct (url_ok key && ascii_value token).
  2:{ cbn. split; [|exact Hfile]. intros e E. inversion E. auto. }
  cbn [fst snd]. split; [|exact Hfile].
  intros e E. unfold delete_result in E.
  destruct (responses _ _) as [| | | |status]; try (inversion E; auto; fail).
  destruct (is_success status); [discriminate|]. inversion E. auto.
Qed.

(** ** Environment variables, in general *)

Lemma append_cons c a s : String c a ++ s = String c (a ++ s).
Proof. reflexivity. Qed.

Lemma append_nil s : "" ++ s = s.
Proof. reflexivity. Qed.

Lemma split_first_some sep s a b :
  split_first sep s = Some (a, b) ->
  s = a ++ String sep b /\ split_first sep a = None.
Proof.
  revert a b. induction s as [|c s IH]; intros a b; cbn [split_first];
    [discriminate|].
  destruct (Ascii.eqb c sep) eqn:Ec.
  - intros E. inversion E; subst. apply Ascii.eqb_eq in Ec. subst c. auto.
  - destruct (split_first sep s) as [[a' b']|]; [|discriminate].
    intros E. inversion E; subst. destruct (IH a' b eq_refl) as [-> Hn].
    rewrite append_cons. cbn [split_first]. rewrite Ec, Hn. auto.
Qed.

Lemma split_first_app sep a b :
  split_first sep a = None -> split_first sep (a ++ String sep b) = Some (a, b).
Proof.
  induction a as [|c a IH]; rewrite ?append_nil, ?append_cons; cbn [split_first].
  - rewrite Ascii.eqb_refl. reflexivity.
  - destruct (Ascii.eqb c sep); [discriminate|].
    destruct (split_first sep a) as [[a' b']|]; [discriminate|].
    intros _. rewrite IH; reflexivity.
Qed.

Lemma name_char_not_equals c : name_char c = true -> Ascii.eqb c "=" = false.
Proof. destruct c as [[] [] [] [] [] [] [] []]; vm_compute; congruence. Qed.

Lemma match_name_tail_no_equals s :
  match_name_tail s = true -> split_first "=" s = None.
Proof.
  induction s as [|c s IH]; cbn [match_name_tail split_first]; [reflexivity|].
  destruct (name_char c) eqn:Ec.
  - intros H. rewrite (name_char_not_equals _ Ec), (IH H). reflexivity.
  - intros H. apply andb_prop in H. destruct H as [Hn Hs].
    apply String.eqb_eq in Hs. subst s.
    unfold is_newline in Hn. apply Ascii.eqb_eq in Hn. subst c. reflexivity.
Qed.

(** A name the pattern accepts holds no ["="]. *)
Lemma re_match_env_name_no_equals k :
  re_match_env_name k = true -> split_first "=" k = None.
Proof.
  destruct k as [|c k]; cbn [re_match_env_name split_first]; [reflexivity|].
  intros H. apply andb_prop in H. destruct H as [Hc Ht].
  assert (Ec : Ascii.eqb c "=" = false).
  { apply name_char_not_equals. unfold name_start in Hc. unfold name_char.
    destruct (is_lower c), (is_upper c), (is_underscore c), (is_digit c);
      cbn in *; congruence. }
  rewrite Ec, (match_name_tail_no_equals _ Ht). reflexivity.
Qed.

Lemma well_formed_entry_iff env :
  well_formed_entry env <-> rejected env = false.
Proof.
  unfold well_formed_entry, rejected. split.
  - intros (k & v & -> & Hm).
    change (k ++ "=" ++ v) with (k ++ String "=" v).
    rewrite (split_first_app _ _ _ (re_match_env_name_no_equals _ Hm)), Hm.
    reflexivity.
  - destruct (split_first "=" env) as [[k v]|] eqn:Es; [|discriminate].
    intros Hm. apply negb_false_iff in Hm.
    apply split_first_some in Es. destruct Es as [-> _].
    exists k, v. auto.
Qed.

Lemma process_envs_from_step acc env rest :
  rejected env = false ->
  exists k v, split_first "=" env = Some (k, v)
              /\ process_envs_from acc (env :: rest)
                 = process_envs_from (<[k := v]> acc) rest.
Proof.
  unfold rejected. destruct (split_first "=" env) as [[k v]|] eqn:Es; [|discriminate].
  intros Hm. apply negb_false_iff in Hm. exists k, v. split; [reflexivity|].
  cbn [process_envs_from]. unfold split_maxsplit1. rewrite Es. cbn. rewrite Hm.
  reflexivity.
Qed.

Lemma process_envs_from_accepts envs : forall acc,
  Forall (fun env => rejected env = false) envs ->
  exists m, process_envs_from acc envs = Ret m.
Proof.
  induction envs as [|env rest IH]; intros acc Hall; [cbn; eauto|].
  inversion Hall as [|? ? Hacc Hrest]; subst.
  destruct (process_envs_from_step acc env rest Hacc) as (k & v & _ & ->).
  apply IH, Hrest.
Qed.

Lemma process_envs_from_raises envs : forall acc e,
  process_envs_from acc envs = Raise e -> exn_cls e = SystemExit.
Proof.
  induction envs as [|env rest IH]; intros acc e; cbn [process_envs_from];
    [discriminate|].
  destruct (negb (Nat.eqb (length (split_maxsplit1 "=" env)) 2));
    [intros E; inversion E; reflexivity|].
  destruct (negb (re_match_env_name _)); [intros E; inversion E; reflexivity|].
  apply IH.
Qed.

(** X13: [process_envs] returns a mapping exactly when every entry has the
    form NAME=VALUE with a name the pattern accepts, the value being any
    text; and when it fails it fails with [SystemExit]. *)
Theorem process_envs_succeeds_iff (envs : list string) :
  ((exists m, process_envs envs = Ret m) <-> Forall well_formed_entry envs)
  /\ (forall e, process_envs envs = Raise e -> exn_cls e = SystemExit).
Proof.
  split; [|apply process_envs_from_raises]. split.
  - intros [m Hm]. apply Forall_forall. intros env Hin.
    apply well_formed_entry_iff.
    destruct (rejected env) eqn:Hr; [|reflexivity]. exfalso.
    apply list_elem_of_In in Hin.
    destruct (process_envs_from_rejected envs ∅ env Hin Hr) as [msg Hf].
    unfold process_envs in Hm. congruence.
  - intros Hall. apply process_envs_from_accepts.
    eapply Forall_impl; [exact Hall|]. intros env. apply well_formed_entry_iff.
Qed.

Lemma process_envs_from_lookup envs : forall acc m k,
  process_envs_from acc envs = Ret m ->
  m !! k = match last_value k envs with
           | Some v => Some v
           | None => acc !! k
           end.
Proof.
  induction envs as [|env rest IH]; intros acc m k; cbn [process_envs_from last_value].
  - intros E. inversion E. reflexivity.
  - unfold split_maxsplit1.
    destruct (split_first "=" env) as [[k' v']|] eqn:Es; cbn; [|discriminate].
    destruct (re_match_env_name k'); cbn; [|discriminate].
    intros E. rewrite (IH _ _ k E).
    destruct (last_value k rest); [reflexivity|].
    destruct (String.eqb k k') eqn:Ek.
    + apply String.eqb_eq in Ek. subst. apply lookup_insert_eq.
    + apply String.eqb_neq in Ek. rewrite lookup_insert_ne by congruence.
      reflexivity.
Qed.

(** X14: in the mapping [process_envs] returns, each name is bound to the
    value of the last entry that names it, and a name no entry names is
    not bound. *)
Theorem process_envs_last_entry_wins (envs : list string) (m : gmap string string)
    (k : string) :
  process_envs envs = Ret m -> m !! k = last_value k envs.
Proof.
  intros E. rewrite (process_envs_from_lookup envs ∅ m k E).
  destruct (last_value k envs); [reflexivity|apply lookup_empty].
Qed.

Lemma process_envs_last_entry_wins_witness :
  ({[ "k" := "new" ]} : gmap string string) !! "k" = last_value "k" ["k=old"; "k=new"].
Proof.
  apply (process_envs_last_entry_wins ["k=old"; "k=new"] {[ "k" := "new" ]} "k").
  vm_compute. reflexivity.
Defined.

Lemma process_envs_from_entries pairs : forall acc,
  Forall (fun kv => spec_env_name (fst kv) = true) pairs ->
  process_envs_from acc (map entry pairs)
  = Ret (list_to_map (reverse pairs) ∪ acc).
Proof.
  induction pairs as [|[k v] pairs IH]; intros acc Hall; cbn [map].
  - cbn. rewrite (left_id_L ∅ (∪)). reflexivity.
  - inversion Hall as [|? ? Hk Hrest]; subst. cbn in Hk.
    apply spec_env_name_accepted in Hk.
    assert (Hrej : rejected (entry (k, v)) = false).
    { apply well_formed_entry_iff. exists k, v. auto. }
    destruct (process_envs_from_step acc (entry (k, v)) (map entry pairs) Hrej)
      as (k' & v' & Hs & ->).
    unfold entry in Hs. cbn [fst snd] in Hs.
    change (k ++ "=" ++ v) with (k ++ String "=" v) in Hs.
    rewrite (split_first_app _ _ _ (re_match_env_name_no_equals _ Hk)) in Hs.
    inversion Hs; subst k' v'.
    rewrite (IH _ Hrest), reverse_cons, list_to_map_app. cbn.
    rewrite <- (assoc_L (∪)), insert_empty, <- insert_union_singleton_l.
    reflexivity.
Qed.

(** X15: writing pairs of a name and a value as entries NAME=VALUE and
    passing them to [process_envs] gives the pairs back as a mapping, for
    all names of the form [[A-Za-z_][A-Za-z0-9_]*] and all values, empty ones
    and ones that hold ["="] included; of two pairs with one name the later
    one counts. *)
Theorem process_envs_round_trip (pairs : list (string * string)) :
  Forall (fun kv => spec_env_name (fst kv) = true) pairs ->
  process_envs (map entry pairs) = Ret (list_to_map (reverse pairs)).
Proof.
  intros Hall. unfold process_envs. rewrite (process_envs_from_entries _ ∅ Hall).
  rewrite (right_id_L ∅ (∪)). reflexivity.
Qed.

Lemma process_envs_round_trip_witness :
  process_envs (map entry [("URL", "a=b"); ("EMPTY", ""); ("URL", "c")])
  = Ret (list_to_map (reverse [("URL", "a=b"); ("EMPTY", ""); ("URL", "c")])).
Proof.
  apply (process_envs_round_trip [("URL", "a=b"); ("EMPTY", ""); ("URL", "c")]).
  repeat constructor.
Defined.

(** ** The deploy-milestone stream, in general *)

Lemma stream_only_refl w : stream_only w w.
Proof. unfold stream_only. auto 10. Qed.

Lemma stream_only_trans w1 w2 w3 :
  stream_only w1 w2 -> stream_only w2 w3 -> stream_only w1 w3.
Proof. unfold stream_only. intuition congruence. Qed.

Lemma stream_only_add_received w : stream_only w (add_received w).
Proof. unfold stream_only. cbn. auto 10. Qed.

Lemma stream_only_add_line l w : stream_only w (add_line l w).
Proof. unfold stream_only. cbn. auto 10. Qed.

(** What the event branch does, frame shape by frame shape: it prints the
    line of [milestone_line] and nothing else. *)
Lemma milestone_event_console `{Datetime} `{Text} `{Hosting} items w :
  console (snd (milestone_event items w))
  = (console w ++ milestone_line (Frame (VDict items)))%list
  /\ stream_only w (snd (milestone_event items w)).
Proof.
  assert (Hsame : console w = (console w ++ [])%list /\ stream_only w w).
  { rewrite app_nil_r. split; [reflexivity|apply stream_only_refl]. }
  unfold milestone_event, milestone_line, get_item, join_bar, console_print. unfold_py.
  destruct (items_get "timestamp" items) as [ts|]; cbn [fst snd]; [|exact Hsame].
  destruct ts as [| | |t| |];
    try (cbn; destruct (items_get "message" items) as [[]|]; cbn; exact Hsame).
  rewrite convert_value_to_local_time_str.
  destruct (items_get "message" items) as [[| | |m| |]|]; cbn; try exact Hsame.
  split; [reflexivity|apply stream_only_add_line].
Qed.

Lemma milestone_step_console `{Datetime} `{Text} `{Hosting} w :
  console (snd (milestone_step w))
  = (console w ++ milestone_line (frames w (received w)))%list
  /\ stream_only w (snd (milestone_step w)).
Proof.
  assert (Hsame : console w = (console w ++ [])%list
                  /\ stream_only w (add_received w)).
  { rewrite app_nil_r. split; [reflexivity|apply stream_only_add_received]. }
  unfold milestone_step, ws_recv_json. unfold_py.
  destruct (frames w (received w)) as [| |row]; cbn; try exact Hsame.
  destruct row as [| | | | |[|item items]]; cbn [fst snd]; try (cbn; exact Hsame).
  destruct (milestone_event_console (item :: items) (add_received w)) as [Hc Hs].
  rewrite (surjective_pairing (milestone_event (item :: items) (add_received w))).
  split.
  - destruct (fst (milestone_event _ _)); cbn [snd]; exact Hc.
  - destruct (fst (milestone_event _ _)); cbn [snd];
      (eapply stream_only_trans; [apply stream_only_add_received|exact Hs]).
Qed.

Lemma milestone_loop_received_ge `{Datetime} `{Text} `{Hosting} budget : forall w,
  received w <= received (snd (milestone_loop budget w)).
Proof.
  induction budget as [|n IH]; intros w; cbn [milestone_loop]; [cbn; lia|].
  unfold bind. pose proof (milestone_step_received w) as [Hr _].
  destruct (milestone_step w) as [[[]|e] w']; cbn in *; try lia.
  specialize (IH w'). lia.
Qed.

Lemma milestone_loop_console `{Datetime} `{Text} `{Hosting} budget : forall w,
  console (snd (milestone_loop budget w))
  = (console w
     ++ lines_from milestone_line (frames w) (received w)
          (received (snd (milestone_loop budget w)) - received w))%list
  /\ stream_only w (snd (milestone_loop budget w)).
Proof.
  induction budget as [|n IH]; intros w; cbn [milestone_loop].
  - cbn. rewrite Nat.sub_diag. cbn. rewrite app_nil_r.
    split; [reflexivity|apply stream_only_refl].
  - unfold bind. pose proof (milestone_step_received w) as [Hr Hf].
    pose proof (milestone_step_console w) as [Hc Hs].
    destruct (milestone_step w) as [[[]|e] w'] eqn:Es; cbn [fst snd] in *.
    + unfold ret; cbn [snd].
      rewrite Hr. replace (S (received w) - received w) with 1 by lia.
      cbn. rewrite app_nil_r. auto.
    + destruct (IH w') as [Hc' Hs']. pose proof (milestone_loop_received_ge n w') as Hge.
      split; [|eapply stream_only_trans; eauto].
      rewrite Hc', Hc, Hf, Hr, <- app_assoc. f_equal.
      rewrite Hr in Hge.
      replace (received (snd (milestone_loop n w')) - received w)
        with (S (received (snd (milestone_loop n w')) - S (received w))) by lia.
      reflexivity.
    + rewrite Hr. replace (S (received w) - received w) with 1 by lia.
      cbn. rewrite app_nil_r. auto.
Qed.

(** X16: over the frames it takes, the deploy-milestone loop prints one line
    per event that has a text timestamp and a text message, the local time
    and the message joined by [" | "], in the order of arrival, and prints
    nothing for any other frame; and it changes nothing in the world but
    the frames received and the console. *)
Theorem milestone_loop_prints_events `{Datetime} `{Text} `{Hosting} (w : world) :
  console (snd (milestone_loop DEPLOYMENT_EVENT_MESSAGES_RETRIES w))
  = (console w
     ++ lines_from milestone_line (frames w) (received w)
          (received (snd (milestone_loop DEPLOYMENT_EVENT_MESSAGES_RETRIES w))
           - received w))%list
  /\ stream_only w (snd (milestone_loop DEPLOYMENT_EVENT_MESSAGES_RETRIES w)).
Proof. apply milestone_loop_console. Qed.

Lemma milestone_step_broken `{Datetime} `{Text} `{Hosting} w :
  broken (frames w (received w)) ->
  exists e, milestone_step w = (Raise e, add_received w) /\ is_Exception e = true.
Proof.
  unfold milestone_step, ws_recv_json. unfold_py.
  intros [-> | ->]; cbn; eauto.
Qed.

Lemma milestone_loop_aborts `{Datetime} `{Text} `{Hosting} k : forall budget w,
  k < budget ->
  (forall i, i < k -> keeps_streaming (frames w (received w + i))) ->
  broken (frames w (received w + k)) ->
  (exists e, fst (milestone_loop budget w) = Raise e /\ is_Exception e = true)
  /\ received (snd (milestone_loop budget w)) = received w + S k.
Proof.
  induction k as [|k IH]; intros budget w Hk Hbefore Hbr;
    (destruct budget as [|n]; [lia|]); cbn [milestone_loop]; unfold bind.
  - rewrite Nat.add_0_r in Hbr.
    destruct (milestone_step_broken _ Hbr) as (e & -> & He). cbn.
    split; [eauto|lia].
  - pose proof (Hbefore 0 ltac:(lia)) as Hfirst. rewrite Nat.add_0_r in Hfirst.
    destruct (milestone_step_keeps_streaming _ Hfirst) as (w' & -> & Hr & Hf).
    destruct (IH n w') as [E1 E2]; try lia.
    + intros i Hi. rewrite Hf, Hr.
      replace (S (received w) + i) with (received w + S i) by lia.
      apply Hbefore. lia.
    + rewrite Hf, Hr.
      replace (S (received w) + k) with (received w + S k) by lia. exact Hbr.
    + split; [exact E1|]. rewrite E2, Hr. lia.
Qed.

(** X17: when the log stream breaks (the connection closes or a frame is not
    JSON) after [k] frames that kept the loop going, with [k] below the
    budget, [display_deploy_milestones] with a key and a valid login
    returns normally, having taken exactly [k + 1] frames: it reads nothing
    after the broken frame and does not reconnect. *)
Theorem display_deploy_milestones_stops_at_broken_frame `{Datetime} `{Text} `{Hosting}
    (k : nat) (key : string) (ts : datetime) (w : world) (token : value) :
  key <> "" ->
  fst (authenticated_token w) = Ret token -> truthy token = true ->
  astimezone ts <> None -> ws_connects w = true ->
  k < DEPLOYMENT_EVENT_MESSAGES_RETRIES ->
  (forall i, i < k -> keeps_streaming (frames w (received w + i))) ->
  broken (frames w (received w + k)) ->
  fst (display_deploy_milestones key ts w) = Ret tt
  /\ received (snd (display_deploy_milestones key ts w)) = received w + S k.
Proof.
  intros Hkey Ht Htr Hts Hconn Hk Hbefore Hbr.
  split; [eapply display_deploy_milestones_returns; eauto|].
  destruct (authenticated_token_stream w) as (Hrecv & Hfr & _ & Hws).
  unfold display_deploy_milestones.
  destruct (String.eqb key "") eqn:Ek; [apply String.eqb_eq in Ek; contradiction|].
  unfold_py. rewrite (surjective_pairing (authenticated_token w)), Ht, Htr; cbn.
  unfold library_call, ws_connect.
  destruct (astimezone ts); [|contradiction]. cbn. rewrite Hws, Hconn.
  destruct (milestone_loop_aborts k DEPLOYMENT_EVENT_MESSAGES_RETRIES
              (snd (authenticated_token w)) Hk) as [(e & He & Hexc) Hn].
  - intros i Hi. rewrite Hfr, Hrecv. apply Hbefore, Hi.
  - rewrite Hfr, Hrecv. exact Hbr.
  - rewrite (surjective_pairing (milestone_loop _ _)), He, Hexc. cbn.
    rewrite Hn, Hrecv. reflexivity.
Qed.

Lemma display_deploy_milestones_stops_at_broken_frame_witness :
  fst (display_deploy_milestones "app" ("2023" : @datetime example_datetime)
         (tailing (fun n => match n with 0 => event "building" | _ => Closed end)))
  = Ret tt
  /\ received (snd (display_deploy_milestones "app" ("2023" : @datetime example_datetime)
         (tailing (fun n => match n with 0 => event "building" | _ => Closed end))))
     = received (tailing (fun n => match n with 0 => event "building" | _ => Closed end))
       + 2.
Proof.
  apply (@display_deploy_milestones_stops_at_broken_frame
           example_datetime example_text example_hosting 1 "app" "2023"
           (tailing (fun n => match n with 0 => event "building" | _ => Closed end))
           (VStr "tok")).
  - discriminate.
  - reflexivity.
  - reflexivity.
  - discriminate.
  - reflexivity.
  - cbn. lia.
  - intros i Hi. assert (i = 0) as -> by lia. right. exists "building".
    split; [|reflexivity].
    exists [("timestamp", VStr "2023"); ("message", VStr "building")], "2023".
    repeat split.
  - left. reflexivity.
Defined.

(** X18: [display_deploy_milestones] raises only at its two guards: for an
    empty key it raises [ValueError] with the world untouched (no file is
    read, nothing is sent), and without a valid login
    [Exception("not authenticated")] with no frame taken.  Past them it
    returns normally whatever the stream does.  In every run it takes at
    most [DEPLOYMENT_EVENT_MESSAGES_RETRIES] frames and leaves the
    credential file as it was. *)
Theorem display_deploy_milestones_outcomes `{Datetime} `{Text} `{Hosting}
    (key : string) (ts : datetime) (w : world) :
  (display_deploy_milestones key ts w
   = (Raise (Exn ValueError "Non-empty key is required for querying deploy status."), w)
   /\ key = ""
   \/ fst (display_deploy_milestones key ts w) = Raise (Exn Exception "not authenticated")
      /\ key <> "" /\ received (snd (display_deploy_milestones key ts w)) = received w
   \/ fst (display_deploy_milestones key ts w) = Ret tt /\ key <> "")
  /\ received (snd (display_deploy_milestones key ts w))
     <= received w + DEPLOYMENT_EVENT_MESSAGES_RETRIES
  /\ hosting_json (snd (display_deploy_milestones key ts w)) = hosting_json w.
Proof.
  destruct (authenticated_token_stream w) as (Hrecv & _ & _ & _).
  pose proof (authenticated_token_file w) as Hfile.
  destruct (authenticated_token_returns w) as [token Ht].
  unfold display_deploy_milestones.
  destruct (String.eqb key "") eqn:Ek.
  { apply String.eqb_eq in Ek. cbn. split; [auto|split; [lia|reflexivity]]. }
  apply String.eqb_neq in Ek.
  unfold_py. rewrite (surjective_pairing (authenticated_token w)), Ht.
  destruct (truthy token); cbn [negb].
  2:{ cbn. split; [right; left; auto|split; [lia|exact Hfile]]. }
  unfold library_call, ws_connect.
  destruct (astimezone ts); cbn.
  2:{ split; [auto|split; [lia|exact Hfile]]. }
  destruct (ws_connects _); cbn.
  2:{ split; [auto|split; [lia|exact Hfile]]. }
  pose proof (milestone_loop_raises DEPLOYMENT_EVENT_MESSAGES_RETRIES
                (snd (authenticated_token w))) as Hr.
  pose proof (milestone_loop_bounded DEPLOYMENT_EVENT_MESSAGES_RETRIES
                (snd (authenticated_token w))) as Hb.
  destruct (milestone_loop_console DEPLOYMENT_EVENT_MESSAGES_RETRIES
              (snd (authenticated_token w))) as [_ (Hs & _)].
  destruct (milestone_loop _ _) as [[[]|e] w']; cbn in *.
  - split; [auto|split; [lia|congruence]].
  - rewrite (Hr e eq_refl). cbn. split; [auto|split; [lia|congruence]].
Qed.

(** ** Tailing the logs *)

Lemma items_set_same k v items :
  items_get k items = Some v -> items_set k v items = items.
Proof.
  induction items as [|[k' v'] rest IH]; cbn; [discriminate|].
  destruct (String.eqb k k').
  - intros E. inversion E. reflexivity.
  - intros E. rewrite (IH E). reflexivity.
Qed.

Lemma join_values_cases values : forall w,
  join_values values w
  = match texts values with
    | Some xs => (Ret (join_bars xs), w)
    | None => (Raise (Exn TypeError "sequence item: expected str instance"), w)
    end.
Proof.
  induction values as [|v rest IH]; intros w; [reflexivity|].
  destruct v as [| | |x| |]; try reflexivity.
  destruct rest as [|v' rest']; [reflexivity|].
  cbn [join_values texts]. unfold bind. rewrite IH.
  cbn [texts]. destruct v' as [| | |y| |]; try reflexivity.
  destruct (texts rest') as [ys|]; reflexivity.
Qed.

Lemma log_row_cases `{Datetime} items w :
  log_row items w
  = match texts (map snd (localized items)) with
    | Some xs => (Ret tt, add_line (join_bars xs) w)
    | None => (Raise (Exn TypeError "sequence item: expected str instance"), w)
    end.
Proof.
  unfold log_row, localized, console_print. unfold_py.
  destruct (items_get "timestamp" items) as [ts|] eqn:Ets.
  - assert (E : convert_value_to_local_time ts
                = Ret match ts with
                      | VStr t => VStr (default t (local_rendering t))
                      | _ => ts
                      end).
    { destruct ts; try reflexivity. apply convert_value_to_local_time_str. }
    rewrite E. cbn [fst snd].
    assert (E' : items_set "timestamp"
                   match ts with
                   | VStr t => VStr (default t (local_rendering t))
                   | _ => ts
                   end items
                 = match ts with
                   | VStr t => items_set "timestamp"
                                 (VStr (default t (local_rendering t))) items
                   | _ => items
                   end).
    { destruct ts; try (apply items_set_same; exact Ets). reflexivity. }
    rewrite E', join_values_cases.
    destruct (texts _); reflexivity.
  - rewrite join_values_cases. destruct (texts _); reflexivity.
Qed.

Lemma log_line_heartbeat `{Datetime} f : heartbeat f -> log_line f = [].
Proof.
  destruct f as [| |row]; try contradiction.
  destruct row as [| | | | |[|item items]]; cbn; try reflexivity. contradiction.
Qed.

(** A loggable frame: the loop goes on, with the line of the frame printed. *)
Lemma get_logs_step_loggable `{Datetime} w :
  loggable (frames w (received w)) ->
  exists w', get_logs_step w = (Ret tt, w')
             /\ received w' = S (received w) /\ frames w' = frames w
             /\ console w' = (console w ++ log_line (frames w (received w)))%list.
Proof.
  unfold get_logs_step, ws_recv_json. unfold_py.
  intros [Hh | (items & Hf & [xs Hxs])].
  - rewrite (log_line_heartbeat _ Hh). unfold heartbeat in Hh.
    destruct (frames w (received w)) as [| |row]; try contradiction.
    destruct row as [| | | | |[|item items]]; try contradiction;
      (eexists; split; [reflexivity|]; cbn; rewrite app_nil_r; auto).
  - rewrite Hf. destruct items as [|item items].
    + eexists; split; [reflexivity|]. cbn. rewrite app_nil_r. auto.
    + rewrite log_row_cases. cbn [log_line]. rewrite Hxs.
      eexists; split; [reflexivity|]. cbn. auto.
Qed.

(** A frame that ends the tailing: the body raises, nothing is printed. *)
Lemma get_logs_step_ends `{Datetime} w :
  ends_tailing (frames w (received w)) ->
  exists e, get_logs_step w = (Raise e, add_received w) /\ is_Exception e = true.
Proof.
  unfold get_logs_step, ws_recv_json. unfold_py.
  intros [[-> | ->] | (item & items & -> & Hnone)]; cbn; eauto.
  rewrite log_row_cases, Hnone. eauto.
Qed.

Lemma get_logs_loop_loggable `{Datetime} k : forall w,
  (forall i, i < k -> loggable (frames w (received w + i))) ->
  exists w',
    (forall n, get_logs_loop (k + n) w = get_logs_loop n w')
    /\ received w' = received w + k /\ frames w' = frames w
    /\ console w'
       = (console w ++ lines_from log_line (frames w) (received w) k)%list.
Proof.
  induction k as [|k IH]; intros w Hall.
  - exists w. cbn. rewrite app_nil_r. repeat split; auto; lia.
  - pose proof (Hall 0 ltac:(lia)) as Hfirst. rewrite Nat.add_0_r in Hfirst.
    destruct (get_logs_step_loggable _ Hfirst) as (w1 & Es & Hr & Hf & Hc).
    destruct (IH w1) as (w' & Hloop & Hr' & Hf' & Hc').
    { intros i Hi. rewrite Hf, Hr.
      replace (S (received w) + i) with (received w + S i) by lia.
      apply Hall. lia. }
    exists w'. split; [|split; [|split]].
    + intros n. cbn [Nat.add get_logs_loop]. unfold bind. rewrite Es. apply Hloop.
    + lia.
    + congruence.
    + rewrite Hc', Hc, Hf, Hr, <- app_assoc. reflexivity.
Qed.

Lemma get_logs_cases `{Datetime} fuel key log_type from token w :
  key <> "" ->
  fst (authenticated_token w) = Ret token -> truthy token = true ->
  start_ok from -> ws_connects w = true ->
  get_logs fuel key log_type from w
  = match get_logs_loop fuel (snd (authenticated_token w)) with
    | (Ret b, w') => (Ret b, w')
    | (Raise e, w') =>
        if is_Exception e
        then (Ret true, add_line LOG_SERVER_NOTE (add_line LOG_SERVER_DISCONNECTED w'))
        else (Raise e, w')
    end.
Proof.
  intros Hkey Ht Htr Hstart Hconn.
  destruct (authenticated_token_stream w) as (_ & _ & _ & Hws).
  unfold get_logs.
  unfold bind at 1. rewrite (surjective_pairing (authenticated_token w)), Ht, Htr.
  cbn [negb].
  destruct (String.eqb key "") eqn:Ek; [apply String.eqb_eq in Ek; contradiction|].
  unfold try_except, except_Exception, ws_connect, console_print. unfold_py.
  assert (E : forall w0,
            (match from with
             | Some ts =>
                 bind (lift (library_call (astimezone ts) RuntimeError "astimezone"))
                      (fun _ => ret tt)
             | None => ret tt
             end) w0 = (Ret tt, w0)).
  { intros w0. destruct from as [ts|]; [|reflexivity].
    unfold start_ok in Hstart. unfold library_call. unfold_py.
    destruct (astimezone ts); [reflexivity|contradiction]. }
  unfold bind, lift, ret in E. rewrite E. rewrite Hws, Hconn.
  destruct (get_logs_loop fuel _) as [[b|e] w']; [reflexivity|].
  destruct (is_Exception e); reflexivity.
Qed.

(** X19: with a key, a valid login and a connection, [get_logs] prints the
    frames that are rows of strings, one line each with the values joined
    by [" | "] and the timestamp in local form, skips heartbeats, and
    returns at the first frame that fails (connection closed, not JSON, a
    value that is no string): it has then taken exactly the frames up to
    that one, and the last two lines on the console are the disconnect
    notice and the note on the server's limit. *)
Theorem get_logs_ends_at_first_failure `{Datetime}
    (k fuel : nat) (key : string) (log_type : LogType) (from : option datetime)
    (w : world) (token : value) :
  key <> "" ->
  fst (authenticated_token w) = Ret token -> truthy token = true ->
  start_ok from -> ws_connects w = true ->
  (forall i, i < k -> loggable (frames w (received w + i))) ->
  ends_tailing (frames w (received w + k)) ->
  k < fuel ->
  fst (get_logs fuel key log_type from w) = Ret true
  /\ received (snd (get_logs fuel key log_type from w)) = received w + S k
  /\ console (snd (get_logs fuel key log_type from w))
     = (console w ++ lines_from log_line (frames w) (received w) k
        ++ [LOG_SERVER_DISCONNECTED; LOG_SERVER_NOTE])%list.
Proof.
  intros Hkey Ht Htr Hstart Hconn Hall Hend Hk.
  rewrite (get_logs_cases fuel key log_type from token w) by assumption.
  destruct (authenticated_token_stream w) as (Hrecv & Hfr & Hcons & _).
  destruct (get_logs_loop_loggable k (snd (authenticated_token w)))
    as (w' & Hloop & Hr' & Hf' & Hc').
  { intros i Hi. rewrite Hfr, Hrecv. apply Hall, Hi. }
  replace fuel with (k + S (fuel - S k)) by lia. rewrite Hloop.
  cbn [get_logs_loop]. unfold bind.
  destruct (get_logs_step_ends w') as (e & -> & He).
  { rewrite Hf', Hr', Hfr, Hrecv. exact Hend. }
  rewrite He. cbn. rewrite Hr', Hc', Hrecv, Hcons, Hfr, <- !app_assoc.
  split; [reflexivity|split; [lia|reflexivity]].
Qed.

Lemma get_logs_ends_at_first_failure_witness :
  fst (get_logs 5 "app" APP_LOG None
         (tailing (fun n => match n with 0 => log_row_example | _ => Closed end)))
  = Ret true
  /\ received (snd (get_logs 5 "app" APP_LOG None
         (tailing (fun n => match n with 0 => log_row_example | _ => Closed end))))
     = received (tailing (fun n => match n with 0 => log_row_example | _ => Closed end))
       + 2
  /\ console (snd (get_logs 5 "app" APP_LOG None
         (tailing (fun n => match n with 0 => log_row_example | _ => Closed end))))
     = (console (tailing (fun n => match n with 0 => log_row_example | _ => Closed end))
        ++ lines_from log_line
             (frames (tailing (fun n => match n with
                                         | 0 => log_row_example
                                         | _ => Closed
                                         end)))
             (received (tailing (fun n => match n with
                                           | 0 => log_row_example
                                           | _ => Closed
                                           end)))
             1
        ++ [LOG_SERVER_DISCONNECTED; LOG_SERVER_NOTE])%list.
Proof.
  apply (@get_logs_ends_at_first_failure example_datetime 1 5 "app" APP_LOG None
           (tailing (fun n => match n with 0 => log_row_example | _ => Closed end))
           (VStr "tok")).
  - discriminate.
  - reflexivity.
  - reflexivity.
  - exact I.
  - reflexivity.
  - intros i Hi. assert (i = 0) as -> by lia. right.
    exists [("timestamp", VStr "2023"); ("message", VStr "started")].
    split; [reflexivity|]. eexists. reflexivity.
  - left. left. reflexivity.
  - lia.
Defined.

(** X20: as long as the frames are heartbeats or rows of strings, [get_logs]
    does not return: after any number of such frames it is still in its
    loop, has printed their lines in order and has not printed the
    disconnect notice. *)
Theorem get_logs_keeps_tailing `{Datetime}
    (fuel : nat) (key : string) (log_type : LogType) (from : option datetime)
    (w : world) (token : value) :
  key <> "" ->
  fst (authenticated_token w) = Ret token -> truthy token = true ->
  start_ok from -> ws_connects w = true ->
  (forall i, i < fuel -> loggable (frames w (received w + i))) ->
  fst (get_logs fuel key log_type from w) = Ret false
  /\ received (snd (get_logs fuel key log_type from w)) = received w + fuel
  /\ console (snd (get_logs fuel key log_type from w))
     = (console w ++ lines_from log_line (frames w) (received w) fuel)%list.
Proof.
  intros Hkey Ht Htr Hstart Hconn Hall.
  rewrite (get_logs_cases fuel key log_type from token w) by assumption.
  destruct (authenticated_token_stream w) as (Hrecv & Hfr & Hcons & _).
  destruct (get_logs_loop_loggable fuel (snd (authenticated_token w)))
    as (w' & Hloop & Hr' & Hf' & Hc').
  { intros i Hi. rewrite Hfr, Hrecv. apply Hall, Hi. }
  specialize (Hloop 0). rewrite Nat.add_0_r in Hloop. rewrite Hloop. cbn.
  rewrite Hr', Hc', Hrecv, Hcons, Hfr. auto.
Qed.

Lemma get_logs_keeps_tailing_witness :
  fst (get_logs 3 "app" ALL_LOG None (tailing (fun _ => log_row_example))) = Ret false
  /\ received (snd (get_logs 3 "app" ALL_LOG None (tailing (fun _ => log_row_example))))
     = received (tailing (fun _ => log_row_example)) + 3
  /\ console (snd (get_logs 3 "app" ALL_LOG None (tailing (fun _ => log_row_example))))
     = (console (tailing (fun _ => log_row_example))
        ++ lines_from log_line (frames (tailing (fun _ => log_row_example)))
             (received (tailing (fun _ => log_row_example))) 3)%list.
Proof.
  apply (@get_logs_keeps_tailing example_datetime 3 "app" ALL_LOG None
           (tailing (fun _ => log_row_example)) (VStr "tok")).
  - discriminate.
  - reflexivity.
  - reflexivity.
  - exact I.
  - reflexivity.
  - intros i Hi. right.
    exists [("timestamp", VStr "2023"); ("message", VStr "started")].
    split; [reflexivity|]. eexists. reflexivity.
Defined.

Lemma get_logs_step_raises `{Datetime} w e :
  fst (get_logs_step w) = Raise e -> is_Exception e = true.
Proof.
  unfold get_logs_step, ws_recv_json. unfold_py.
  destruct (frames w (received w)) as [| |row]; cbn;
    try (intros E; inversion E; reflexivity).
  destruct row as [| | | | |[|item items]]; cbn; try discriminate.
  rewrite log_row_cases. destruct (texts _); cbn; [discriminate|].
  intros E; inversion E; reflexivity.
Qed.

Lemma get_logs_loop_raises `{Datetime} fuel : forall w e,
  fst (get_logs_loop fuel w) = Raise e -> is_Exception e = true.
Proof.
  induction fuel as [|n IH]; intros w e; cbn [get_logs_loop]; [discriminate|].
  unfold bind. pose proof (get_logs_step_raises w e) as Hs.
  destruct (get_logs_step w) as [[[]|e'] w']; cbn in *; [apply IH|].
  intros E. inversion E; subst. apply Hs. reflexivity.
Qed.

(** X21: [get_logs] raises only at its two guards, and the login is checked
    first: every exception it raises is [Exception("not authenticated")] or,
    for an empty key, [ValueError], and the world is then as
    [authenticated_token] left it, so that with a stored token the
    validation request has been sent before the empty key is turned
    down.  Failures of the connection or the stream are never raised. *)
Theorem get_logs_raises_only_at_guards `{Datetime}
    (fuel : nat) (key : string) (log_type : LogType) (from : option datetime)
    (w : world) (e : exn) :
  fst (get_logs fuel key log_type from w) = Raise e ->
  (e = Exn Exception "not authenticated"
   \/ e = Exn ValueError "Valid key is required for querying logs." /\ key = "")
  /\ snd (get_logs fuel key log_type from w) = snd (authenticated_token w).
Proof.
  destruct (authenticated_token_returns w) as [token Ht].
  assert (Hcases :
    (get_logs fuel key log_type from w
     = (Raise (Exn Exception "not authenticated"), snd (authenticated_token w)))
    \/ (get_logs fuel key log_type from w
        = (Raise (Exn ValueError "Valid key is required for querying logs."),
           snd (authenticated_token w)) /\ key = "")
    \/ (exists b, fst (get_logs fuel key log_type from w) = Ret b)).
  { destruct (authenticated_token w) as [r w1] eqn:Ea. cbn in Ht. subst r.
    cbn [snd].
    destruct (truthy token) eqn:Htr.
    2:{ left. unfold get_logs. unfold bind at 1. rewrite Ea, Htr. reflexivity. }
    destruct (String.eqb key "") eqn:Ek.
    { right. left. split; [|apply String.eqb_eq; exact Ek].
      unfold get_logs. unfold bind at 1. rewrite Ea, Htr, Ek. reflexivity. }
    right. right. unfold get_logs. unfold bind at 1. rewrite Ea, Htr, Ek.
    cbn [negb].
    unfold try_except, except_Exception, ws_connect, console_print, library_call.
    unfold_py.
    pose proof (get_logs_loop_raises fuel w1) as Hr.
    destruct from as [ts|]; [destruct (astimezone ts)|]; cbn; eauto;
      (destruct (ws_connects _); cbn; eauto;
       destruct (get_logs_loop fuel _) as [[b|e'] w']; cbn in *; eauto;
       rewrite (Hr e' eq_refl); cbn; eauto). }
  intros E. destruct Hcases as [Hc | [[Hc Hk] | [b Hc]]].
  - rewrite Hc in E |- *. cbn in *. inversion E. auto.
  - rewrite Hc in E |- *. cbn in *. inversion E. auto.
  - congruence.
Qed.

Lemma get_logs_raises_only_at_guards_witness :
  (Exn ValueError "Valid key is required for querying logs."
   = Exn Exception "not authenticated"
   \/ Exn ValueError "Valid key is required for querying logs."
      = Exn ValueError "Valid key is required for querying logs." /\ "" = "")
  /\ snd (get_logs 1 "" APP_LOG None (logged_in (Response 200)))
     = snd (authenticated_token (logged_in (Response 200))).
Proof.
  apply (@get_logs_raises_only_at_guards example_datetime 1 "" APP_LOG None
           (logged_in (Response 200))).
  reflexivity.
Defined.

(** ** The environment prompt *)

Lemma prompt_for_envs_loop_pairs pairs : forall envs stop rest w,
  Forall (fun kv => fst kv <> "") pairs ->
  no_answer stop = true ->
  prompt_for_envs_loop (answers_of pairs ++ stop :: rest) envs w
  = (Ret ((envs ++ map entry pairs)%list, rest),
     add_line (match (envs ++ map entry pairs)%list with
               | [] => "No envs added. Continuing ..."
               | _ :: _ => "Finished adding envs."
               end) w).
Proof.
  induction pairs as [|[k v] pairs IH]; intros envs stop rest w Hall Hstop.
  - cbn [answers_of map concat app prompt_for_envs_loop]. rewrite Hstop.
    rewrite app_nil_r. unfold console_print. unfold_py.
    destruct envs; reflexivity.
  - inversion Hall as [|? ? Hk Hrest]; subst. cbn in Hk.
    assert (Hne : no_answer (Some k) = false).
    { cbn. apply String.eqb_neq. exact Hk. }
    change (answers_of ((k, v) :: pairs) ++ stop :: rest)%list
      with (Some k :: Some v :: (answers_of pairs ++ stop :: rest))%list.
    cbn [prompt_for_envs_loop]. rewrite Hne.
    rewrite (IH _ stop rest w Hrest Hstop).
    cbn [map]. rewrite <- app_assoc. reflexivity.
Qed.

(** X22: when the user enters names and values in turn, every name
    non-empty, and then an empty name, [interactive_prompt_for_envs]
    returns the entries NAME=VALUE in the order entered and reads no
    answer beyond the empty name; it prints the heading and then one
    closing line, which says whether any entry was added. *)
Theorem interactive_prompt_for_envs_collects
    (pairs : list (string * string)) (stop : option string)
    (rest : list (option string)) (w : world) :
  Forall (fun kv => fst kv <> "") pairs ->
  no_answer stop = true ->
  fst (interactive_prompt_for_envs (answers_of pairs ++ stop :: rest) w)
  = Ret (map entry pairs, rest)
  /\ console (snd (interactive_prompt_for_envs (answers_of pairs ++ stop :: rest) w))
     = (console w
        ++ ["Environment variables ...";
            match pairs with
            | [] => "No envs added. Continuing ..."
            | _ :: _ => "Finished adding envs."
            end])%list.
Proof.
  intros Hall Hstop. unfold interactive_prompt_for_envs, console_print. unfold_py.
  rewrite (prompt_for_envs_loop_pairs pairs [] stop rest _ Hall Hstop).
  cbn. rewrite <- app_assoc. cbn. destruct pairs; auto.
Qed.

Lemma interactive_prompt_for_envs_collects_witness :
  fst (interactive_prompt_for_envs
         (answers_of [("A", "1"); ("B", "")] ++ Some "" :: [Some "unread"]) logged_out)
  = Ret (map entry [("A", "1"); ("B", "")], [Some "unread"])
  /\ console (snd (interactive_prompt_for_envs
         (answers_of [("A", "1"); ("B", "")] ++ Some "" :: [Some "unread"]) logged_out))
     = (console logged_out
        ++ ["Environment variables ..."; "Finished adding envs."])%list.
Proof.
  apply (interactive_prompt_for_envs_collects
           [("A", "1"); ("B", "")] (Some "") [Some "unread"] logged_out).
  - repeat constructor; discriminate.
  - reflexivity.
Defined.

Lemma spec_env_name_nonempty k : spec_env_name k = true -> k <> "".
Proof. destruct k; cbn; congruence. Qed.

(** X23: what the prompt collects, [process_envs] takes: when every name
    the user enters has the form [[A-Za-z_][A-Za-z0-9_]*], the entries that
    [interactive_prompt_for_envs] returns are turned by [process_envs] into
    the mapping of the names to the values entered, the later value
    counting for a name entered twice. *)
Theorem prompted_envs_are_processed
    (pairs : list (string * string)) (stop : option string)
    (rest : list (option string)) (w : world) :
  Forall (fun kv => spec_env_name (fst kv) = true) pairs ->
  no_answer stop = true ->
  exists envs,
    fst (interactive_prompt_for_envs (answers_of pairs ++ stop :: rest) w)
    = Ret (envs, rest)
    /\ process_envs envs = Ret (list_to_map (reverse pairs)).
Proof.
  intros Hall Hstop. exists (map entry pairs). split.
  - unfold interactive_prompt_for_envs, console_print. unfold_py.
    rewrite (prompt_for_envs_loop_pairs pairs [] stop rest _); [reflexivity| |exact Hstop].
    eapply Forall_impl; [exact Hall|]. intros kv. apply spec_env_name_nonempty.
  - unfold process_envs. rewrite (process_envs_from_entries _ ∅ Hall).
    rewrite (right_id_L ∅ (∪)). reflexivity.
Qed.

Lemma prompted_envs_are_processed_witness :
  exists envs,
    fst (interactive_prompt_for_envs
           (answers_of [("PORT", "80"); ("PORT", "8080")] ++ None :: []) logged_out)
    = Ret (envs, [])
    /\ process_envs envs
       = Ret (list_to_map (reverse [("PORT", "80"); ("PORT", "8080")])).
Proof.
  apply (prompted_envs_are_processed
           [("PORT", "80"); ("PORT", "8080")] None [] logged_out).
  - repeat constructor.
  - reflexivity.
Defined.
